(** * EduManage front end (frontend/src/App.js): query, pagination and form state

    A shallow embedding of the state kept by the [App] component and its three
    creation dialogs, of the event handlers that change it, and of the
    asynchronous loaders, whose continuations run when the network answers.

    - React state cells ([useState]) are fields of records; a setter call is a
      record update.  All setter calls of one event handler are applied
      together (React batches them), followed by the [useEffect] of the
      component when one of its dependencies changed.
    - An [async] function is split at its [await]: the part before it runs
      inside the event that called it and leaves a continuation in the table
      of requests in flight; the part after it runs when the request settles.
    - JavaScript numbers are modelled by [Z]: the pagination arithmetic only
      adds and subtracts small integers.
    - [console.error], [alert] and the HTTP requests sent are recorded, in
      order, in a log.  A request is kept as its method, its resource and its
      parameters or body; the text of the URL is not built.
    - The answers of the backend and of [window.confirm] are inputs: they
      come with the events [Settle] and [ClickDelete]. *)

From Stdlib Require Import Ascii.
From stdpp Require Import gmap strings list pretty.

Open Scope string_scope.
Open Scope Z_scope.

(** ** Constants for dropdowns *)

Definition GRADE_LEVELS : list string :=
  [ "Kindergarten"; "Grade 1"; "Grade 2"; "Grade 3"; "Grade 4"; "Grade 5";
    "Grade 6"; "Grade 7"; "Grade 8"; "Grade 9"; "Grade 10"; "Grade 11";
    "Grade 12" ].

Definition GENDERS : list string := [ "male"; "female"; "other" ].
Definition STATUSES : list string :=
  [ "active"; "inactive"; "graduated"; "suspended" ].

(** ** JavaScript helpers *)

(** Truthiness of a string: only the empty string is falsy. *)
Definition truthy (s : string) : bool := bool_decide (s ≠ "").

(** [a || b] on strings, where [a] may be undefined (optional chaining). *)
Definition or_else (a : option string) (b : string) : string :=
  match a with
  | Some s => if truthy s then s else b
  | None => b
  end.

(** [Number.prototype.toString] on an integer: the decimal digits, with a
    minus sign for a negative number.  This is what JavaScript prints for the
    integers a number holds exactly (up to [Number.MAX_SAFE_INTEGER] in
    absolute value); beyond them a number is rounded and, from 1e21 on,
    printed with an exponent, which is not modelled. *)
Definition toString (n : Z) : string := pretty n.

(** [parseInt(s)] without a radix: leading white space, an optional sign, an
    optional [0x] prefix, then the longest run of digits; [None] is NaN.
    The result is the integer the digits denote, which is the number
    JavaScript returns as long as it is at most [Number.MAX_SAFE_INTEGER] in
    absolute value; a longer run of digits is rounded there, which is not
    modelled.  White space is the ASCII one. *)
Definition is_white_space (a : ascii) : bool :=
  let n := nat_of_ascii a in
  bool_decide (n = 32 ∨ (9 ≤ n ∧ n ≤ 13))%nat.

Fixpoint skip_white_space (s : string) : string :=
  match s with
  | String a s' => if is_white_space a then skip_white_space s' else s
  | EmptyString => s
  end.

Definition digit_value (radix : Z) (a : ascii) : option Z :=
  let n := Z.of_nat (nat_of_ascii a) in
  let d :=
    if bool_decide (48 ≤ n ≤ 57) then Some (n - 48)
    else if bool_decide (97 ≤ n ≤ 122) then Some (n - 87)
    else if bool_decide (65 ≤ n ≤ 90) then Some (n - 55)
    else None in
  match d with
  | Some v => if bool_decide (v < radix) then Some v else None
  | None => None
  end.

Fixpoint parse_digits (radix : Z) (s : string) (acc : option Z) : option Z :=
  match s with
  | String a s' =>
      match digit_value radix a with
      | Some d => parse_digits radix s' (Some (radix * default 0 acc + d))
      | None => acc
      end
  | EmptyString => acc
  end.

Definition parseInt (s : string) : option Z :=
  let s := skip_white_space s in
  let '(sign, s) :=
    match s with
    | String "-"%char s' => (-1, s')
    | String "+"%char s' => (1, s')
    | _ => (1, s)
    end in
  let '(radix, s) :=
    match s with
    | String "0"%char (String "x"%char s') => (16, s')
    | String "0"%char (String "X"%char s') => (16, s')
    | _ => (10, s)
    end in
  (λ n, sign * n) <$> parse_digits radix s None.

(** ** Records returned by the backend

    The front end passes them through; only the fields the list views show
    are kept. *)

Module Student.
Record t := mk {
  id : string;
  student_id : string;
  first_name : string;
  last_name : string;
  email : string;
  grade_level : string;
  status : string;
  parent_name : string;
}.

#[global] Instance eq_dec : EqDecision t.
Proof. solve_decision. Defined.
End Student.

Module Teacher.
Record t := mk {
  id : string;
  teacher_id : string;
  first_name : string;
  last_name : string;
  email : string;
  subject_specialization : string;
  status : string;
}.
End Teacher.

Module Course.
Record t := mk {
  id : string;
  course_code : string;
  course_name : string;
  description : string;
  credit_hours : option Z;
  grade_levels : list string;
}.
End Course.

Record Stats := {
  total_students : Z;
  active_students : Z;
  total_teachers : Z;
  total_courses : Z;
}.

(** ** Form buffers of the three creation dialogs *)

Module StudentForm.
Record t := mk {
  student_id : string;
  first_name : string;
  last_name : string;
  email : string;
  phone : string;
  date_of_birth : string;
  gender : string;
  grade_level : string;
  address : string;
  parent_name : string;
  parent_email : string;
  parent_phone : string;
}.

(** The record given to [useState], and again to [setFormData] in
    [handleSubmit]. *)
Definition initial : t :=
  {| student_id := ""; first_name := ""; last_name := ""; email := "";
     phone := ""; date_of_birth := ""; gender := "male";
     grade_level := "Grade 1"; address := ""; parent_name := "";
     parent_email := ""; parent_phone := "" |}.

Inductive field :=
| Fstudent_id | Ffirst_name | Flast_name | Femail | Fphone | Fdate_of_birth
| Fgender | Fgrade_level | Faddress | Fparent_name | Fparent_email
| Fparent_phone.

#[global] Instance field_eq_dec : EqDecision field.
Proof. solve_decision. Defined.

(** [{...formData, k: v}] *)
Definition set (k : field) (v : string) (f : t) : t :=
  let pick k' old := if decide (k = k') then v else old in
  {| student_id := pick Fstudent_id (student_id f);
     first_name := pick Ffirst_name (first_name f);
     last_name := pick Flast_name (last_name f);
     email := pick Femail (email f);
     phone := pick Fphone (phone f);
     date_of_birth := pick Fdate_of_birth (date_of_birth f);
     gender := pick Fgender (gender f);
     grade_level := pick Fgrade_level (grade_level f);
     address := pick Faddress (address f);
     parent_name := pick Fparent_name (parent_name f);
     parent_email := pick Fparent_email (parent_email f);
     parent_phone := pick Fparent_phone (parent_phone f) |}.
End StudentForm.

Module TeacherForm.
Record t := mk {
  teacher_id : string;
  first_name : string;
  last_name : string;
  email : string;
  phone : string;
  subject_specialization : string;
}.

Definition initial : t :=
  {| teacher_id := ""; first_name := ""; last_name := ""; email := "";
     phone := ""; subject_specialization := "" |}.

Inductive field :=
| Fteacher_id | Ffirst_name | Flast_name | Femail | Fphone
| Fsubject_specialization.

#[global] Instance field_eq_dec : EqDecision field.
Proof. solve_decision. Defined.

Definition set (k : field) (v : string) (f : t) : t :=
  let pick k' old := if decide (k = k') then v else old in
  {| teacher_id := pick Fteacher_id (teacher_id f);
     first_name := pick Ffirst_name (first_name f);
     last_name := pick Flast_name (last_name f);
     email := pick Femail (email f);
     phone := pick Fphone (phone f);
     subject_specialization :=
       pick Fsubject_specialization (subject_specialization f) |}.
End TeacherForm.

Module CourseForm.
Record t := mk {
  course_code : string;
  course_name : string;
  description : string;
  credit_hours : string;
  grade_levels : list string;
}.

Definition initial : t :=
  {| course_code := ""; course_name := ""; description := "";
     credit_hours := ""; grade_levels := [] |}.

Inductive field := Fcourse_code | Fcourse_name | Fdescription | Fcredit_hours.

#[global] Instance field_eq_dec : EqDecision field.
Proof. solve_decision. Defined.

Definition set (k : field) (v : string) (f : t) : t :=
  let pick k' old := if decide (k = k') then v else old in
  {| course_code := pick Fcourse_code (course_code f);
     course_name := pick Fcourse_name (course_name f);
     description := pick Fdescription (description f);
     credit_hours := pick Fcredit_hours (credit_hours f);
     grade_levels := grade_levels f |}.

Definition set_grade_levels (l : list string) (f : t) : t :=
  {| course_code := course_code f; course_name := course_name f;
     description := description f; credit_hours := credit_hours f;
     grade_levels := l |}.

(** The value of [credit_hours] in the submitted record: [null], a number,
    or NaN when [parseInt] finds no digit. *)
Inductive credit := Null | Num (n : Z) | NaN.

(** [submitData] of [handleSubmit]. *)
Record submit := mkSubmit {
  s_course_code : string;
  s_course_name : string;
  s_description : string;
  s_credit_hours : credit;
  s_grade_levels : list string;
}.

Definition submitData (f : t) : submit :=
  {| s_course_code := course_code f;
     s_course_name := course_name f;
     s_description := description f;
     s_credit_hours :=
       if truthy (credit_hours f)
       then match parseInt (credit_hours f) with
            | Some n => Num n
            | None => NaN
            end
       else Null;
     s_grade_levels := grade_levels f |}.
End CourseForm.

(** [handleGradeLevelChange]: the new value of [formData.grade_levels]. *)
Definition newGrades (grade_levels : list string) (grade : string)
  : list string :=
  if bool_decide (grade ∈ grade_levels)
  then filter (λ g, g ≠ grade) grade_levels
  else (grade_levels ++ [grade])%list.


(** ** State of the [App] component *)

Inductive View := ViewDashboard | ViewStudents | ViewTeachers | ViewCourses.

#[global] Instance View_eq_dec : EqDecision View.
Proof. solve_decision. Defined.

Record Pagination := { skip : Z; limit : Z }.

(** One field per [useState] cell of [App]. *)
Record AppState := {
  activeView : View;
  students : list Student.t;
  teachers : list Teacher.t;
  courses : list Course.t;
  dashboardStats : option Stats;
  loading : bool;
  searchTerm : string;
  filterGrade : string;
  filterStatus : string;
  showAddStudent : bool;
  showAddTeacher : bool;
  showAddCourse : bool;
  selectedStudent : option Student.t;
  pagination : Pagination;
  totalStudents : Z;
}.

(** The arguments of the [useState] calls. *)
Definition initialState : AppState :=
  {| activeView := ViewDashboard; students := []; teachers := [];
     courses := []; dashboardStats := None; loading := false;
     searchTerm := ""; filterGrade := ""; filterStatus := "";
     showAddStudent := false; showAddTeacher := false;
     showAddCourse := false; selectedStudent := None;
     pagination := {| skip := 0; limit := 20 |}; totalStudents := 0 |}.

(** The state setters. *)
Definition setActiveView (v : View) (a : AppState) : AppState :=
  {| activeView := v; students := students a; teachers := teachers a;
     courses := courses a; dashboardStats := dashboardStats a;
     loading := loading a; searchTerm := searchTerm a;
     filterGrade := filterGrade a; filterStatus := filterStatus a;
     showAddStudent := showAddStudent a; showAddTeacher := showAddTeacher a;
     showAddCourse := showAddCourse a; selectedStudent := selectedStudent a;
     pagination := pagination a; totalStudents := totalStudents a |}.

Definition setStudents (v : list Student.t) (a : AppState) : AppState :=
  {| activeView := activeView a; students := v; teachers := teachers a;
     courses := courses a; dashboardStats := dashboardStats a;
     loading := loading a; searchTerm := searchTerm a;
     filterGrade := filterGrade a; filterStatus := filterStatus a;
     showAddStudent := showAddStudent a; showAddTeacher := showAddTeacher a;
     showAddCourse := showAddCourse a; selectedStudent := selectedStudent a;
     pagination := pagination a; totalStudents := totalStudents a |}.

Definition setTeachers (v : list Teacher.t) (a : AppState) : AppState :=
  {| activeView := activeView a; students := students a; teachers := v;
     courses := courses a; dashboardStats := dashboardStats a;
     loading := loading a; searchTerm := searchTerm a;
     filterGrade := filterGrade a; filterStatus := filterStatus a;
     showAddStudent := showAddStudent a; showAddTeacher := showAddTeacher a;
     showAddCourse := showAddCourse a; selectedStudent := selectedStudent a;
     pagination := pagination a; totalStudents := totalStudents a |}.

Definition setCourses (v : list Course.t) (a : AppState) : AppState :=
  {| activeView := activeView a; students := students a;
     teachers := teachers a; courses := v; dashboardStats := dashboardStats a;
     loading := loading a; searchTerm := searchTerm a;
     filterGrade := filterGrade a; filterStatus := filterStatus a;
     showAddStudent := showAddStudent a; showAddTeacher := showAddTeacher a;
     showAddCourse := showAddCourse a; selectedStudent := selectedStudent a;
     pagination := pagination a; totalStudents := totalStudents a |}.

Definition setDashboardStats (v : option Stats) (a : AppState) : AppState :=
  {| activeView := activeView a; students := students a;
     teachers := teachers a; courses := courses a; dashboardStats := v;
     loading := loading a; searchTerm := searchTerm a;
     filterGrade := filterGrade a; filterStatus := filterStatus a;
     showAddStudent := showAddStudent a; showAddTeacher := showAddTeacher a;
     showAddCourse := showAddCourse a; selectedStudent := selectedStudent a;
     pagination := pagination a; totalStudents := totalStudents a |}.

Definition setLoading (v : bool) (a : AppState) : AppState :=
  {| activeView := activeView a; students := students a;
     teachers := teachers a; courses := courses a;
     dashboardStats := dashboardStats a; loading := v;
     searchTerm := searchTerm a; filterGrade := filterGrade a;
     filterStatus := filterStatus a; showAddStudent := showAddStudent a;
     showAddTeacher := showAddTeacher a; showAddCourse := showAddCourse a;
     selectedStudent := selectedStudent a; pagination := pagination a;
     totalStudents := totalStudents a |}.

Definition setSearchTerm (v : string) (a : AppState) : AppState :=
  {| activeView := activeView a; students := students a;
     teachers := teachers a; courses := courses a;
     dashboardStats := dashboardStats a; loading := loading a;
     searchTerm := v; filterGrade := filterGrade a;
     filterStatus := filterStatus a; showAddStudent := showAddStudent a;
     showAddTeacher := showAddTeacher a; showAddCourse := showAddCourse a;
     selectedStudent := selectedStudent a; pagination := pagination a;
     totalStudents := totalStudents a |}.

Definition setFilterGrade (v : string) (a : AppState) : AppState :=
  {| activeView := activeView a; students := students a;
     teachers := teachers a; courses := courses a;
     dashboardStats := dashboardStats a; loading := loading a;
     searchTerm := searchTerm a; filterGrade := v;
     filterStatus := filterStatus a; showAddStudent := showAddStudent a;
     showAddTeacher := showAddTeacher a; showAddCourse := showAddCourse a;
     selectedStudent := selectedStudent a; pagination := pagination a;
     totalStudents := totalStudents a |}.

Definition setFilterStatus (v : string) (a : AppState) : AppState :=
  {| activeView := activeView a; students := students a;
     teachers := teachers a; courses := courses a;
     dashboardStats := dashboardStats a; loading := loading a;
     searchTerm := searchTerm a; filterGrade := filterGrade a;
     filterStatus := v; showAddStudent := showAddStudent a;
     showAddTeacher := showAddTeacher a; showAddCourse := showAddCourse a;
     selectedStudent := selectedStudent a; pagination := pagination a;
     totalStudents := totalStudents a |}.

Definition setShowAddStudent (v : bool) (a : AppState) : AppState :=
  {| activeView := activeView a; students := students a;
     teachers := teachers a; courses := courses a;
     dashboardStats := dashboardStats a; loading := loading a;
     searchTerm := searchTerm a; filterGrade := filterGrade a;
     filterStatus := filterStatus a; showAddStudent := v;
     showAddTeacher := showAddTeacher a; showAddCourse := showAddCourse a;
     selectedStudent := selectedStudent a; pagination := pagination a;
     totalStudents := totalStudents a |}.

Definition setShowAddTeacher (v : bool) (a : AppState) : AppState :=
  {| activeView := activeView a; students := students a;
     teachers := teachers a; courses := courses a;
     dashboardStats := dashboardStats a; loading := loading a;
     searchTerm := searchTerm a; filterGrade := filterGrade a;
     filterStatus := filterStatus a; showAddStudent := showAddStudent a;
     showAddTeacher := v; showAddCourse := showAddCourse a;
     selectedStudent := selectedStudent a; pagination := pagination a;
     totalStudents := totalStudents a |}.

Definition setShowAddCourse (v : bool) (a : AppState) : AppState :=
  {| activeView := activeView a; students := students a;
     teachers := teachers a; courses := courses a;
     dashboardStats := dashboardStats a; loading := loading a;
     searchTerm := searchTerm a; filterGrade := filterGrade a;
     filterStatus := filterStatus a; showAddStudent := showAddStudent a;
     showAddTeacher := showAddTeacher a; showAddCourse := v;
     selectedStudent := selectedStudent a; pagination := pagination a;
     totalStudents := totalStudents a |}.

Definition setSelectedStudent (v : option Student.t) (a : AppState) : AppState :=
  {| activeView := activeView a; students := students a;
     teachers := teachers a; courses := courses a;
     dashboardStats := dashboardStats a; loading := loading a;
     searchTerm := searchTerm a; filterGrade := filterGrade a;
     filterStatus := filterStatus a; showAddStudent := showAddStudent a;
     showAddTeacher := showAddTeacher a; showAddCourse := showAddCourse a;
     selectedStudent := v; pagination := pagination a;
     totalStudents := totalStudents a |}.

Definition setPagination (v : Pagination) (a : AppState) : AppState :=
  {| activeView := activeView a; students := students a;
     teachers := teachers a; courses := courses a;
     dashboardStats := dashboardStats a; loading := loading a;
     searchTerm := searchTerm a; filterGrade := filterGrade a;
     filterStatus := filterStatus a; showAddStudent := showAddStudent a;
     showAddTeacher := showAddTeacher a; showAddCourse := showAddCourse a;
     selectedStudent := selectedStudent a; pagination := v;
     totalStudents := totalStudents a |}.

Definition setTotalStudents (v : Z) (a : AppState) : AppState :=
  {| activeView := activeView a; students := students a;
     teachers := teachers a; courses := courses a;
     dashboardStats := dashboardStats a; loading := loading a;
     searchTerm := searchTerm a; filterGrade := filterGrade a;
     filterStatus := filterStatus a; showAddStudent := showAddStudent a;
     showAddTeacher := showAddTeacher a; showAddCourse := showAddCourse a;
     selectedStudent := selectedStudent a; pagination := pagination a;
     totalStudents := v |}.

(** ** Requests, responses and effects *)

(** The entries of the [URLSearchParams] object, in order. *)
Definition Params := list (string * string).

Inductive Request :=
| GetDashboardStats
| GetStudents (params : Params)
| GetStudentsCount (params : Params)
| GetTeachers
| GetCourses
| PostStudent (studentData : StudentForm.t)
| PostTeacher (teacherData : TeacherForm.t)
| PostCourse (courseData : CourseForm.submit)
| DeleteStudent (studentId : string).

(** The value a rejected axios promise carries: [error.response?.data?.detail]
    when the backend answered with a detail message, and [error.message]. *)
Record HttpError := { detail : option string; message : string }.

(** Calls that reach the user or the outside, in the order they are made. *)
Inductive Effect :=
| Http (r : Request)
| ConsoleError (label : string) (error : HttpError)
| Alert (text : string).

(** What an awaited promise settles with.  [RespStudents] is the result of the
    [Promise.all] of the page and count requests when both succeed;
    [RespError] is a rejection (for [Promise.all], of either request). *)
Inductive Response :=
| RespStats (data : Stats)
| RespStudents (data : list Student.t) (count : Z)
| RespTeachers (data : list Teacher.t)
| RespCourses (data : list Course.t)
| RespDone
| RespError (error : HttpError).

(** The rest of an [async] function after its [await].  [closure] is the
    state of the render whose [loadStudents] the function captured. *)
Inductive Pending :=
| AwaitDashboardStats
| AwaitStudents
| AwaitTeachers
| AwaitCourses
| AwaitAddStudent (closure : AppState)
| AwaitAddTeacher
| AwaitAddCourse
| AwaitDeleteStudent (closure : AppState).

(** The page as a whole: [App], the buffers of the three dialogs (they stay
    mounted while closed), the promises in flight, and the log of effects. *)
Record World := {
  app : AppState;
  studentForm : StudentForm.t;
  teacherForm : TeacherForm.t;
  courseForm : CourseForm.t;
  inflight : gmap nat Pending;
  nextId : nat;
  log : list Effect;
}.

Definition setApp (f : AppState → AppState) (w : World) : World :=
  {| app := f (app w); studentForm := studentForm w;
     teacherForm := teacherForm w; courseForm := courseForm w;
     inflight := inflight w; nextId := nextId w; log := log w |}.

Definition setStudentForm (v : StudentForm.t) (w : World) : World :=
  {| app := app w; studentForm := v; teacherForm := teacherForm w;
     courseForm := courseForm w; inflight := inflight w; nextId := nextId w;
     log := log w |}.

Definition setTeacherForm (v : TeacherForm.t) (w : World) : World :=
  {| app := app w; studentForm := studentForm w; teacherForm := v;
     courseForm := courseForm w; inflight := inflight w; nextId := nextId w;
     log := log w |}.

Definition setCourseForm (v : CourseForm.t) (w : World) : World :=
  {| app := app w; studentForm := studentForm w;
     teacherForm := teacherForm w; courseForm := v; inflight := inflight w;
     nextId := nextId w; log := log w |}.

(** Record one effect at the end of the log. *)
Definition emit (e : Effect) (w : World) : World :=
  {| app := app w; studentForm := studentForm w;
     teacherForm := teacherForm w; courseForm := courseForm w;
     inflight := inflight w; nextId := nextId w; log := (log w ++ [e])%list |}.

(** Suspend at an [await]: the continuation gets the next free number. *)
Definition await (p : Pending) (w : World) : World :=
  {| app := app w; studentForm := studentForm w;
     teacherForm := teacherForm w; courseForm := courseForm w;
     inflight := <[nextId w := p]> (inflight w); nextId := S (nextId w);
     log := log w |}.

(** A settled promise leaves the table. *)
Definition retire (i : nat) (w : World) : World :=
  {| app := app w; studentForm := studentForm w;
     teacherForm := teacherForm w; courseForm := courseForm w;
     inflight := delete i (inflight w); nextId := nextId w; log := log w |}.

Definition alert (text : string) : World → World := emit (Alert text).
Definition console_error (label : string) (e : HttpError) : World → World :=
  emit (ConsoleError label e).
Definition axios (r : Request) : World → World := emit (Http r).

(** Statements in sequence. *)
Notation "f >>> g" := (λ w : World, g (f w))
  (at level 61, left associativity, only parsing).

(** ** The loaders of [App] *)

(** [loadDashboardStats], up to its [await]. *)
Definition loadDashboardStats : World → World :=
  setApp (setLoading true) >>>
  axios GetDashboardStats >>>
  await AwaitDashboardStats.

(** The [params] built by [loadStudents] from the state [a] it closes over:
    [skip] and [limit] always, then each filter that is truthy. *)
Definition params (a : AppState) : Params :=
  ([ ("skip", toString (skip (pagination a)));
     ("limit", toString (limit (pagination a))) ]
   ++ (if truthy (searchTerm a) then [("search", searchTerm a)] else [])
   ++ (if truthy (filterGrade a) then [("grade_level", filterGrade a)] else [])
   ++ (if truthy (filterStatus a) then [("status", filterStatus a)] else [])
  )%list.

(** [loadStudents], up to its [await]; [a] is the state it closes over. *)
Definition loadStudents (a : AppState) : World → World :=
  setApp (setLoading true) >>>
  axios (GetStudents (params a)) >>>
  axios (GetStudentsCount (params a)) >>>
  await AwaitStudents.

Definition loadTeachers : World → World :=
  axios GetTeachers >>> await AwaitTeachers.

Definition loadCourses : World → World :=
  axios GetCourses >>> await AwaitCourses.

(** The body of the [useEffect]. *)
Definition effect (w : World) : World :=
  match activeView (app w) with
  | ViewDashboard => loadDashboardStats w
  | ViewStudents => loadStudents (app w) w
  | ViewTeachers => loadTeachers w
  | ViewCourses => loadCourses w
  end.

(** Whether the dependency array
    [[activeView, pagination, searchTerm, filterGrade, filterStatus]] differs
    between the renders of [a] and [b].  The strings are compared by value;
    [pagination] is an object compared by identity, and [fresh] tells that
    [setPagination] stored a new object. *)
Definition deps_changed (fresh : bool) (a b : AppState) : bool :=
  bool_decide (activeView a ≠ activeView b)
  || fresh
  || bool_decide (searchTerm a ≠ searchTerm b)
  || bool_decide (filterGrade a ≠ filterGrade b)
  || bool_decide (filterStatus a ≠ filterStatus b).

(** Apply the state updates [f] of one event handler of [App], render, and
    run the effect when its dependencies changed. *)
Definition update (fresh : bool) (f : AppState → AppState) (w : World)
  : World :=
  let w' := setApp f w in
  if deps_changed fresh (app w) (app w') then effect w' else w'.

(** ** Handlers of [App] *)

Definition resetFilters (a : AppState) : AppState :=
  setPagination {| skip := 0; limit := 20 |}
    (setFilterStatus "" (setFilterGrade "" (setSearchTerm "" a))).

Definition nextPage (a : AppState) : AppState :=
  let prev := pagination a in
  setPagination {| skip := skip prev + limit prev; limit := limit prev |} a.

Definition prevPage (a : AppState) : AppState :=
  let prev := pagination a in
  setPagination
    {| skip := Z.max 0 (skip prev - limit prev); limit := limit prev |} a.

(** [handleAddStudent], up to its [await]. *)
Definition handleAddStudent (studentData : StudentForm.t) (w : World)
  : World :=
  (axios (PostStudent studentData) >>> await (AwaitAddStudent (app w))) w.

Definition handleAddTeacher (teacherData : TeacherForm.t) : World → World :=
  axios (PostTeacher teacherData) >>> await AwaitAddTeacher.

Definition handleAddCourse (courseData : CourseForm.submit) : World → World :=
  axios (PostCourse courseData) >>> await AwaitAddCourse.

(** [handleDeleteStudent], up to its [await]; [confirmed] is the answer of
    [window.confirm]. *)
Definition handleDeleteStudent (studentId : string) (confirmed : bool)
    (w : World) : World :=
  if confirmed
  then (axios (DeleteStudent studentId) >>>
        await (AwaitDeleteStudent (app w))) w
  else w.

(** ** Handlers of the dialogs *)

(** [handleSubmit] of [AddStudentModal]: [onSubmit(formData)] runs
    [handleAddStudent] up to its [await], then the buffer is set again to the
    initial record. *)
Definition AddStudentModal_handleSubmit (w : World) : World :=
  (handleAddStudent (studentForm w) >>>
   setStudentForm StudentForm.initial) w.

Definition AddTeacherModal_handleSubmit (w : World) : World :=
  (handleAddTeacher (teacherForm w) >>>
   setTeacherForm TeacherForm.initial) w.

Definition AddCourseModal_handleSubmit (w : World) : World :=
  (handleAddCourse (CourseForm.submitData (courseForm w)) >>>
   setCourseForm CourseForm.initial) w.

Definition handleGradeLevelChange (grade : string) (w : World) : World :=
  let formData := courseForm w in
  setCourseForm
    (CourseForm.set_grade_levels
       (newGrades (CourseForm.grade_levels formData) grade) formData) w.

(** ** The pagination bar

    The bar is computed at each render from [pagination] and
    [totalStudents]. *)

(** [disabled] of the Previous and Next buttons. *)
Definition prevDisabled (pagination : Pagination) : bool :=
  bool_decide (skip pagination = 0).

Definition nextDisabled (pagination : Pagination) (totalStudents : Z) : bool :=
  bool_decide (skip pagination + limit pagination >= totalStudents).

(** The three numbers of the line "Showing .. to .. of .. students". *)
Definition window (pagination : Pagination) (totalStudents : Z) : Z * Z * Z :=
  (skip pagination + 1,
   Z.min (skip pagination + limit pagination) totalStudents,
   totalStudents).

Definition showing (pagination : Pagination) (totalStudents : Z) : string :=
  let '(first, last, total) := window pagination totalStudents in
  "Showing " +:+ toString first +:+ " to " +:+ toString last
  +:+ " of " +:+ toString total +:+ " students".

(** ** Continuations: what runs when a request settles *)

(** The rest of the [async] function suspended as [p], for the answer [r];
    [None] when [r] is not an answer to the request [p] waits for. *)
Definition resume (p : Pending) (r : Response) : option (World → World) :=
  match p, r with
  | AwaitDashboardStats, RespStats data =>
      Some (setApp (setDashboardStats (Some data)) >>>
            setApp (setLoading false))
  | AwaitDashboardStats, RespError error =>
      Some (console_error "Error loading dashboard stats:" error >>>
            setApp (setLoading false))
  | AwaitStudents, RespStudents data count =>
      Some (setApp (setStudents data) >>>
            setApp (setTotalStudents count) >>>
            setApp (setLoading false))
  | AwaitStudents, RespError error =>
      Some (console_error "Error loading students:" error >>>
            setApp (setLoading false))
  | AwaitTeachers, RespTeachers data => Some (setApp (setTeachers data))
  | AwaitTeachers, RespError error =>
      Some (console_error "Error loading teachers:" error)
  | AwaitCourses, RespCourses data => Some (setApp (setCourses data))
  | AwaitCourses, RespError error =>
      Some (console_error "Error loading courses:" error)
  | AwaitAddStudent closure, RespDone =>
      Some (setApp (setShowAddStudent false) >>> loadStudents closure)
  | AwaitAddStudent _, RespError error =>
      Some (console_error "Error adding student:" error >>>
            alert ("Error adding student: "
                   +:+ or_else (detail error) (message error)))
  | AwaitAddTeacher, RespDone =>
      Some (setApp (setShowAddTeacher false) >>> loadTeachers)
  | AwaitAddTeacher, RespError error =>
      Some (console_error "Error adding teacher:" error >>>
            alert ("Error adding teacher: "
                   +:+ or_else (detail error) (message error)))
  | AwaitAddCourse, RespDone =>
      Some (setApp (setShowAddCourse false) >>> loadCourses)
  | AwaitAddCourse, RespError error =>
      Some (console_error "Error adding course:" error >>>
            alert ("Error adding course: "
                   +:+ or_else (detail error) (message error)))
  | AwaitDeleteStudent closure, RespDone => Some (loadStudents closure)
  | AwaitDeleteStudent _, RespError error =>
      Some (console_error "Error deleting student:" error)
  | _, _ => None
  end.

(** The promise numbered [i] settles with [r]. *)
Definition settle (i : nat) (r : Response) (w : World) : World :=
  match inflight w !! i with
  | Some p =>
      match resume p r with
      | Some continuation => continuation (retire i w)
      | None => w
      end
  | None => w
  end.

(** ** Events *)

Inductive Event :=
| ClickNav (view : View)
| ChangeSearch (value : string)
| ChangeGrade (value : string)
| ChangeStatus (value : string)
| ClickResetFilters
| ClickPrevious
| ClickNext
| ClickAddStudent
| ClickAddTeacher
| ClickAddCourse
| CloseAddStudent
| CloseAddTeacher
| CloseAddCourse
| ClickView (student : Student.t)
| CloseDetail
| ClickDelete (studentId : string) (confirmed : bool)
| EditStudent (k : StudentForm.field) (value : string)
| EditTeacher (k : TeacherForm.field) (value : string)
| EditCourse (k : CourseForm.field) (value : string)
| ToggleGradeLevel (grade : string)
| SubmitStudent
| SubmitTeacher
| SubmitCourse
| Settle (i : nat) (r : Response).

(** One event.  A click on a disabled button does nothing. *)
Definition step (w : World) (e : Event) : World :=
  match e with
  | ClickNav view => update false (setActiveView view) w
  | ChangeSearch value => update false (setSearchTerm value) w
  | ChangeGrade value => update false (setFilterGrade value) w
  | ChangeStatus value => update false (setFilterStatus value) w
  | ClickResetFilters => update true resetFilters w
  | ClickPrevious =>
      if prevDisabled (pagination (app w)) then w
      else update true prevPage w
  | ClickNext =>
      if nextDisabled (pagination (app w)) (totalStudents (app w)) then w
      else update true nextPage w
  | ClickAddStudent => update false (setShowAddStudent true) w
  | ClickAddTeacher => update false (setShowAddTeacher true) w
  | ClickAddCourse => update false (setShowAddCourse true) w
  | CloseAddStudent => update false (setShowAddStudent false) w
  | CloseAddTeacher => update false (setShowAddTeacher false) w
  | CloseAddCourse => update false (setShowAddCourse false) w
  | ClickView student => update false (setSelectedStudent (Some student)) w
  | CloseDetail => update false (setSelectedStudent None) w
  | ClickDelete studentId confirmed =>
      handleDeleteStudent studentId confirmed w
  | EditStudent k value =>
      setStudentForm (StudentForm.set k value (studentForm w)) w
  | EditTeacher k value =>
      setTeacherForm (TeacherForm.set k value (teacherForm w)) w
  | EditCourse k value =>
      setCourseForm (CourseForm.set k value (courseForm w)) w
  | ToggleGradeLevel grade => handleGradeLevelChange grade w
  | SubmitStudent => AddStudentModal_handleSubmit w
  | SubmitTeacher => AddTeacherModal_handleSubmit w
  | SubmitCourse => AddCourseModal_handleSubmit w
  | Settle i r => settle i r w
  end.

Definition run (w : World) (events : list Event) : World :=
  foldl step w events.

(** ** What is on screen

    The controls the JSX renders in a given state, and with them the events
    that can happen there: the filters and the Add button of a view only in
    that view, the table and the pagination bar only when [loading] is
    false, the controls of a dialog only while it is open; a form is
    submitted only with its [required] inputs filled; a promise settles only
    while it is in flight, with an answer to its request. *)
Definition on_screen (w : World) (e : Event) : bool :=
  let a := app w in
  let in_students := bool_decide (activeView a = ViewStudents) in
  let table := in_students && negb (loading a) in
  match e with
  | ClickNav _ => true
  | ChangeSearch _ | ClickResetFilters | ClickAddStudent => in_students
  | ChangeGrade value => in_students && bool_decide (value ∈ "" :: GRADE_LEVELS)
  | ChangeStatus value => in_students && bool_decide (value ∈ "" :: STATUSES)
  | ClickPrevious | ClickNext => table
  | ClickView student => table && bool_decide (student ∈ students a)
  | ClickDelete studentId _ =>
      table && bool_decide (studentId ∈ Student.id <$> students a)
  | ClickAddTeacher => bool_decide (activeView a = ViewTeachers)
  | ClickAddCourse => bool_decide (activeView a = ViewCourses)
  | CloseAddStudent => showAddStudent a
  | CloseAddTeacher => showAddTeacher a
  | CloseAddCourse => showAddCourse a
  | CloseDetail => bool_decide (is_Some (selectedStudent a))
  | EditStudent k value =>
      showAddStudent a &&
      match k with
      | StudentForm.Fgender => bool_decide (value ∈ GENDERS)
      | StudentForm.Fgrade_level => bool_decide (value ∈ GRADE_LEVELS)
      | _ => true
      end
  | EditTeacher _ _ => showAddTeacher a
  | EditCourse _ _ => showAddCourse a
  | ToggleGradeLevel grade =>
      showAddCourse a && bool_decide (grade ∈ GRADE_LEVELS)
  | SubmitStudent =>
      let f := studentForm w in
      showAddStudent a && truthy (StudentForm.student_id f)
      && truthy (StudentForm.first_name f) && truthy (StudentForm.last_name f)
      && truthy (StudentForm.date_of_birth f)
  | SubmitTeacher =>
      let f := teacherForm w in
      showAddTeacher a && truthy (TeacherForm.teacher_id f)
      && truthy (TeacherForm.first_name f) && truthy (TeacherForm.last_name f)
      && truthy (TeacherForm.email f)
  | SubmitCourse =>
      let f := courseForm w in
      showAddCourse a && truthy (CourseForm.course_code f)
      && truthy (CourseForm.course_name f)
  | Settle i r =>
      match inflight w !! i with
      | Some p => bool_decide (is_Some (resume p r))
      | None => false
      end
  end.

(** Each event of the sequence is on screen when its turn comes. *)
Fixpoint feasible (w : World) (events : list Event) : bool :=
  match events with
  | [] => true
  | e :: events => on_screen w e && feasible (step w e) events
  end.

(** The page before its first render, and after it (the effect runs once on
    mount, for the dashboard). *)
Definition unmounted : World :=
  {| app := initialState; studentForm := StudentForm.initial;
     teacherForm := TeacherForm.initial; courseForm := CourseForm.initial;
     inflight := ∅; nextId := 0; log := [] |}.

Definition mounted : World := effect unmounted.

(** ** The query state on its own

    The operations on the search term, the two filters and the pagination
    window, as calls in sequence without the page around them. *)

Inductive Op :=
| SetSearchTerm (value : string)
| SetFilterGrade (value : string)
| SetFilterStatus (value : string)
| ResetFilters
| NextPage
| PrevPage.

Definition apply (a : AppState) (o : Op) : AppState :=
  match o with
  | SetSearchTerm value => setSearchTerm value a
  | SetFilterGrade value => setFilterGrade value a
  | SetFilterStatus value => setFilterStatus value a
  | ResetFilters => resetFilters a
  | NextPage => nextPage a
  | PrevPage => prevPage a
  end.

(** Two student records for the examples. *)
Definition ann : Student.t :=
  Student.mk "1" "S001" "Ann" "Lee" "ann@example.org" "Grade 1" "active" "".
Definition bob : Student.t :=
  Student.mk "2" "S002" "Bob" "Ray" "bob@example.org" "Grade 2" "active" "".

(** ** Vocabulary of the properties *)

Definition filter_keys : list string := ["search"; "grade_level"; "status"].

(** The entries [loadStudents] appends for the three filters. *)
Definition filter_entries (a : AppState) : Params :=
  ((if truthy (searchTerm a) then [("search", searchTerm a)] else [])
   ++ (if truthy (filterGrade a) then [("grade_level", filterGrade a)] else [])
   ++ (if truthy (filterStatus a) then [("status", filterStatus a)] else [])
  )%list.

(** [URLSearchParams.get]: the first value stored under a key. *)
Definition get (k : string) (ps : Params) : option string :=
  (λ found, found.2.2) <$> list_find (λ kv, kv.1 = k) ps.

(** The two requests of one students load. *)
Definition students_requests (a : AppState) : list Effect :=
  [Http (GetStudents (params a)); Http (GetStudentsCount (params a))].

(** What every operation keeps true of [pagination]. *)
Definition pagination_ok (a : AppState) : Prop :=
  0 ≤ skip (pagination a) ∧ limit (pagination a) = 20.

(** What a change of one filter does in the students view: [a] is the state
    with the new filter value, [changed] tells whether the value is new. *)
Definition filter_change_outcome (w w' : World) (a : AppState)
    (changed : Prop) : Prop :=
  pagination (app w') = pagination (app w) ∧
  (changed →
   app w' = setLoading true a ∧
   log w' = (log w ++ students_requests a)%list ∧
   get "skip" (params a) = Some (toString (skip (pagination (app w)))) ∧
   get "limit" (params a) = Some (toString (limit (pagination (app w))))) ∧
  (¬ changed → log w' = log w).

(** The three creation dialogs, to speak of them together. *)
Inductive Dialog := AddStudent | AddTeacher | AddCourse.

Definition Submit (d : Dialog) : Event :=
  match d with
  | AddStudent => SubmitStudent
  | AddTeacher => SubmitTeacher
  | AddCourse => SubmitCourse
  end.

(** [isOpen] of the dialog. *)
Definition isOpen (d : Dialog) (a : AppState) : bool :=
  match d with
  | AddStudent => showAddStudent a
  | AddTeacher => showAddTeacher a
  | AddCourse => showAddCourse a
  end.

Definition buffer_is_initial (d : Dialog) (w : World) : Prop :=
  match d with
  | AddStudent => studentForm w = StudentForm.initial
  | AddTeacher => teacherForm w = TeacherForm.initial
  | AddCourse => courseForm w = CourseForm.initial
  end.

Definition buffers (w : World)
  : StudentForm.t * TeacherForm.t * CourseForm.t :=
  (studentForm w, teacherForm w, courseForm w).

(** The create request a submission of the dialog sends from [w]. *)
Definition create_request (d : Dialog) (w : World) : Request :=
  match d with
  | AddStudent => PostStudent (studentForm w)
  | AddTeacher => PostTeacher (teacherForm w)
  | AddCourse => PostCourse (CourseForm.submitData (courseForm w))
  end.

(** [p] is the rest of the dialog's create handler. *)
Definition awaits_create (d : Dialog) (p : Pending) : Prop :=
  match d, p with
  | AddStudent, AwaitAddStudent _ => True
  | AddTeacher, AwaitAddTeacher => True
  | AddCourse, AwaitAddCourse => True
  | _, _ => False
  end.

Definition noun (d : Dialog) : string :=
  match d with
  | AddStudent => "student"
  | AddTeacher => "teacher"
  | AddCourse => "course"
  end.

(** What the [catch] block of the dialog's create handler logs and shows. *)
Definition create_failure_effects (d : Dialog) (error : HttpError)
  : list Effect :=
  [ConsoleError ("Error adding " +:+ noun d +:+ ":") error;
   Alert ("Error adding " +:+ noun d +:+ ": "
          +:+ or_else (detail error) (message error))].

(** The answer to a create request that met an existing student id. *)
Definition duplicate_id : HttpError :=
  {| detail := Some "Student ID already exists";
     message := "Request failed with status code 400" |}.

(** The students view with one student listed and the creation dialog open
    and filled in. *)
Definition filling_in_events : list Event :=
  [ClickNav ViewStudents; Settle 1 (RespStudents [ann] 1); ClickAddStudent;
   EditStudent StudentForm.Fstudent_id "S001";
   EditStudent StudentForm.Ffirst_name "Ann";
   EditStudent StudentForm.Flast_name "Lee";
   EditStudent StudentForm.Femail "ann@example.org";
   EditStudent StudentForm.Fdate_of_birth "2015-04-01"].

Definition filling_in : World := run mounted filling_in_events.

(** Promises in flight carry numbers already given out. *)
Definition ids_below (w : World) : Prop :=
  ∀ i, is_Some (inflight w !! i) → (i < nextId w)%nat.

(** [skip] is a whole number of pages of 20. *)
Definition on_page_boundary (a : AppState) : Prop :=
  ∃ k, 0 ≤ k ∧ skip (pagination a) = 20 * k ∧ limit (pagination a) = 20.

(** The requests the effect sends for the view of [a]. *)
Definition view_requests (a : AppState) : list Effect :=
  match activeView a with
  | ViewDashboard => [Http GetDashboardStats]
  | ViewStudents => students_requests a
  | ViewTeachers => [Http GetTeachers]
  | ViewCourses => [Http GetCourses]
  end.

(** The continuation the effect leaves in flight for a view. *)
Definition view_loader (v : View) : Pending :=
  match v with
  | ViewDashboard => AwaitDashboardStats
  | ViewStudents => AwaitStudents
  | ViewTeachers => AwaitTeachers
  | ViewCourses => AwaitCourses
  end.

(** The continuations of the four loaders, and those that drive the
    [loading] flag. *)
Definition is_loader (p : Pending) : bool :=
  match p with
  | AwaitDashboardStats | AwaitStudents | AwaitTeachers | AwaitCourses => true
  | _ => false
  end.

Definition sets_loading (p : Pending) : bool :=
  match p with
  | AwaitDashboardStats | AwaitStudents => true
  | _ => false
  end.

(** A log in which each page request of the students list is followed at
    once by a count request with the same parameters, and no count request
    stands alone; [open] holds the parameters of a page request that still
    waits for its count request. *)
Fixpoint paired_from (open : option Params) (l : list Effect) : bool :=
  match l with
  | [] => bool_decide (open = None)
  | e :: l' =>
      match open, e with
      | None, Http (GetStudents ps) => paired_from (Some ps) l'
      | None, Http (GetStudentsCount _) => false
      | None, _ => paired_from None l'
      | Some ps, Http (GetStudentsCount ps') =>
          bool_decide (ps = ps') && paired_from None l'
      | Some _, _ => false
      end
  end.

Definition paired (l : list Effect) : bool := paired_from None l.

(** The spinner has a reason: when [loading] is true, a load that will clear
    it is in flight. *)
Definition spinner_ok (w : World) : Prop :=
  loading (app w) = true →
  ∃ i p, inflight w !! i = Some p ∧ sets_loading p = true.

(** What [console.error] gets as its first argument when a load fails. *)
Definition load_error_label (p : Pending) : string :=
  match p with
  | AwaitDashboardStats => "Error loading dashboard stats:"
  | AwaitStudents => "Error loading students:"
  | AwaitTeachers => "Error loading teachers:"
  | _ => "Error loading courses:"
  end.

(** The requests a create handler sends after its request succeeded: the load
    of its list, for the students with the query its closure holds. *)
Definition reload_requests (p : Pending) : list Effect :=
  match p with
  | AwaitAddStudent closure => students_requests closure
  | AwaitAddTeacher => [Http GetTeachers]
  | AwaitAddCourse => [Http GetCourses]
  | _ => []
  end.

Definition reload_loader (d : Dialog) : Pending :=
  match d with
  | AddStudent => AwaitStudents
  | AddTeacher => AwaitTeachers
  | AddCourse => AwaitCourses
  end.

(** Strings of decimal digits. *)
Definition is_digit (c : ascii) : bool :=
  bool_decide (c ∈ ["0"; "1"; "2"; "3"; "4"; "5"; "6"; "7"; "8"; "9"]%char).

Fixpoint all_digits (s : string) : bool :=
  match s with
  | EmptyString => true
  | String c s' => is_digit c && all_digits s'
  end.

(** The values held by what the page offers as a choice among fixed
    options: the two filter dropdowns, the two dropdowns of the student form
    and the check boxes of the course form. *)
Definition choices (w : World)
  : string * string * string * string * list string :=
  (filterGrade (app w), filterStatus (app w),
   StudentForm.gender (studentForm w), StudentForm.grade_level (studentForm w),
   CourseForm.grade_levels (courseForm w)).

Definition choices_ok (c : string * string * string * string * list string)
  : Prop :=
  let '(grade, status, gender, grade_level, grade_levels) := c in
  grade ∈ "" :: GRADE_LEVELS ∧ status ∈ "" :: STATUSES ∧
  gender ∈ GENDERS ∧ grade_level ∈ GRADE_LEVELS ∧
  NoDup grade_levels ∧ grade_levels ⊆ GRADE_LEVELS.

(** [Number.MAX_SAFE_INTEGER]: up to it, in absolute value, a JavaScript
    number holds every integer exactly. *)
Definition MAX_SAFE_INTEGER : Z := 2 ^ 53 - 1.

(** The load of its list that the create handler of a dialog sends when its
    request succeeded, [a] being the state of the render whose handler it
    is. *)
Definition list_requests (d : Dialog) (a : AppState) : list Effect :=
  match d with
  | AddStudent => students_requests a
  | AddTeacher => [Http GetTeachers]
  | AddCourse => [Http GetCourses]
  end.

(** The students view on its second page with the grade filter set, and the
    creation dialog open and filled in. *)
Definition filling_in_filtered_events : list Event :=
  [ClickNav ViewStudents; Settle 1 (RespStudents [ann; bob] 45);
   ChangeGrade "Grade 3"; Settle 2 (RespStudents [ann; bob] 30);
   ClickNext; Settle 3 (RespStudents [ann] 30);
   ClickAddStudent;
   EditStudent StudentForm.Fstudent_id "S003";
   EditStudent StudentForm.Ffirst_name "Cy";
   EditStudent StudentForm.Flast_name "Orr";
   EditStudent StudentForm.Fdate_of_birth "2014-09-01";
   EditStudent StudentForm.Fgrade_level "Grade 3"].

Definition filling_in_filtered : World :=
  run mounted filling_in_filtered_events.

(** * Properties *)

(** ** The grade-level multi-select *)

Section toggle.
Implicit Types (l : list string) (g x : string).

Lemma filter_absent l g : g ∉ l → filter (λ x, x ≠ g) l = l.
Proof.
  induction l as [|y l IH]; [done|].
  intros [Hy Hl]%not_elem_of_cons.
  rewrite filter_cons_True by congruence. by rewrite IH.
Qed.

Lemma newGrades_selected l g :
  g ∈ l → newGrades l g = filter (λ x, x ≠ g) l.
Proof. intros H. unfold newGrades. by rewrite bool_decide_eq_true_2. Qed.

Lemma newGrades_absent l g : g ∉ l → newGrades l g = (l ++ [g])%list.
Proof. intros H. unfold newGrades. by rewrite bool_decide_eq_false_2. Qed.

Lemma not_elem_of_filter_ne l g : g ∉ filter (λ x, x ≠ g) l.
Proof. rewrite list_elem_of_filter. tauto. Qed.

(** Selections built by toggling from the empty selection hold no grade
    twice. *)
Lemma newGrades_NoDup l g : NoDup l → NoDup (newGrades l g).
Proof.
  intros Hl. destruct (decide (g ∈ l)) as [Hin|Hin].
  - rewrite newGrades_selected by done. by apply NoDup_filter.
  - rewrite newGrades_absent by done. apply NoDup_app. split_and!; [done| |].
    + intros x Hx ->%list_elem_of_singleton. done.
    + apply NoDup_singleton.
Qed.

End toggle.

(** C4, as stated, fails: with Kindergarten and Grade 1 ticked in that order
    in the course dialog, unticking and ticking Kindergarten again leaves
    Grade 1 first. *)
Lemma toggle_twice_moves_to_end :
  let before := [ClickNav ViewCourses; Settle 1 (RespCourses []);
                 ClickAddCourse; ToggleGradeLevel "Kindergarten";
                 ToggleGradeLevel "Grade 1"] in
  let twice := [ToggleGradeLevel "Kindergarten";
                ToggleGradeLevel "Kindergarten"] in
  let w := run mounted before in
  let w' := run w twice in
  feasible mounted (before ++ twice) = true ∧
  CourseForm.grade_levels (courseForm w) = ["Kindergarten"; "Grade 1"] ∧
  CourseForm.grade_levels (courseForm w') = ["Grade 1"; "Kindergarten"] ∧
  CourseForm.grade_levels (courseForm w')
    ≠ CourseForm.grade_levels (courseForm w).
Proof. by vm_compute. Qed.

(** C4, amended: toggling a grade twice always restores the membership of
    the selection; it restores the list itself when the grade was absent, and
    otherwise leaves the grade as the last entry, after the other entries in
    their original order. *)
Theorem toggle_twice (l : list string) (g : string) :
  let l' := newGrades (newGrades l g) g in
  (∀ x, x ∈ l' ↔ x ∈ l) ∧
  (g ∉ l → l' = l) ∧
  (g ∈ l → l' = (filter (λ x, x ≠ g) l ++ [g])%list).
Proof.
  cbv zeta. destruct (decide (g ∈ l)) as [Hin|Hin].
  - rewrite (newGrades_selected l g) by done.
    rewrite newGrades_absent by apply not_elem_of_filter_ne.
    split_and!; [|done|done].
    intros x. rewrite elem_of_app, list_elem_of_filter, list_elem_of_singleton.
    destruct (decide (x = g)) as [->|]; intuition congruence.
  - rewrite (newGrades_absent l g) by done.
    rewrite newGrades_selected by (apply elem_of_app; right; constructor).
    rewrite filter_app, filter_absent by done.
    rewrite filter_cons_False by (intros H; by apply H).
    rewrite filter_nil, app_nil_r. split_and!; [done|done|done].
Qed.

(** ** The query parameters *)

Lemma params_shape a :
  params a = ("skip", toString (skip (pagination a)))
             :: ("limit", toString (limit (pagination a)))
             :: filter_entries a.
Proof. reflexivity. Qed.

Lemma truthy_spec s : truthy s = true ↔ s ≠ "".
Proof. unfold truthy. apply bool_decide_eq_true. Qed.

Lemma filter_entries_spec a k v :
  (k, v) ∈ filter_entries a ↔
  v ≠ "" ∧ ((k = "search" ∧ v = searchTerm a)
            ∨ (k = "grade_level" ∧ v = filterGrade a)
            ∨ (k = "status" ∧ v = filterStatus a)).
Proof.
  unfold filter_entries.
  destruct (truthy (searchTerm a)) eqn:E1;
  destruct (truthy (filterGrade a)) eqn:E2;
  destruct (truthy (filterStatus a)) eqn:E3;
  try apply truthy_spec in E1; try apply truthy_spec in E2;
  try apply truthy_spec in E3;
  try (apply not_true_iff_false in E1; rewrite truthy_spec in E1);
  try (apply not_true_iff_false in E2; rewrite truthy_spec in E2);
  try (apply not_true_iff_false in E3; rewrite truthy_spec in E3);
  rewrite ?elem_of_app, ?elem_of_cons, ?elem_of_nil;
  split; intros H; intuition (simplify_eq; try congruence; eauto).
Qed.

(** C6: in whatever state the setters (or any other operation) leave the
    query, the parameters sent hold [skip] and [limit], and a filter key
    appears only with a value that is not empty; it appears exactly when its
    filter is not empty. *)
Theorem params_no_empty_filter (a0 : AppState) (ops : list Op) :
  let a := foldl apply a0 ops in
  "skip" ∈ (params a).*1 ∧ "limit" ∈ (params a).*1 ∧
  (∀ k v, (k, v) ∈ params a → k ∈ filter_keys → v ≠ "") ∧
  (∀ v, ("search", v) ∈ params a ↔ v = searchTerm a ∧ v ≠ "") ∧
  (∀ v, ("grade_level", v) ∈ params a ↔ v = filterGrade a ∧ v ≠ "") ∧
  (∀ v, ("status", v) ∈ params a ↔ v = filterStatus a ∧ v ≠ "").
Proof.
  cbv zeta. generalize (foldl apply a0 ops) as a. clear. intros a.
  rewrite params_shape. split_and!.
  - rewrite !fmap_cons. simpl. set_solver.
  - rewrite !fmap_cons. simpl. set_solver.
  - intros k v. rewrite !elem_of_cons, filter_entries_spec. unfold filter_keys.
    rewrite !elem_of_cons, elem_of_nil.
    intros [?|[?|[? _]]] ?; simplify_eq; intuition discriminate.
  - intros v. rewrite !elem_of_cons, filter_entries_spec.
    split; intros H; intuition (simplify_eq; eauto).
  - intros v. rewrite !elem_of_cons, filter_entries_spec.
    split; intros H; intuition (simplify_eq; eauto).
  - intros v. rewrite !elem_of_cons, filter_entries_spec.
    split; intros H; intuition (simplify_eq; eauto).
Qed.

(** C7: from any state, [resetFilters] leaves the three filters empty and the
    pagination at skip 0, limit 20, as in the initial state, and the
    parameters built next are exactly [skip=0] and [limit=20]. *)
Theorem resetFilters_restores_initial (a : AppState) :
  let a' := resetFilters a in
  searchTerm a' = "" ∧ filterGrade a' = "" ∧ filterStatus a' = "" ∧
  pagination a' = {| skip := 0; limit := 20 |} ∧
  (searchTerm a', filterGrade a', filterStatus a', pagination a')
  = (searchTerm initialState, filterGrade initialState,
     filterStatus initialState, pagination initialState) ∧
  params a' = [("skip", "0"); ("limit", "20")].
Proof. by split_and!. Qed.

(** ** The pagination window *)

Lemma apply_pagination_ok a o : pagination_ok a → pagination_ok (apply a o).
Proof.
  unfold pagination_ok. destruct o; simpl; try done; intros [? ?]; lia.
Qed.

Lemma foldl_apply_pagination_ok ops :
  ∀ a, pagination_ok a → pagination_ok (foldl apply a ops).
Proof.
  induction ops as [|o ops IH]; simpl; [done|].
  intros a Ha. by apply IH, apply_pagination_ok.
Qed.

Lemma initialState_pagination_ok : pagination_ok initialState.
Proof. by split. Qed.

(** On the page: no event of the page breaks what the operations keep true of
    [pagination]: the loaders and the continuations never write it. *)

Lemma loader_pagination (w : World) :
  pagination (app (effect w)) = pagination (app w).
Proof. unfold effect. by destruct (activeView (app w)). Qed.

Lemma update_pagination_ok fresh f w :
  pagination_ok (f (app w)) → pagination_ok (app (update fresh f w)).
Proof.
  unfold pagination_ok, update.
  destruct (deps_changed _ _ _); [rewrite loader_pagination|]; done.
Qed.

Lemma settle_pagination i r w :
  pagination (app (settle i r w)) = pagination (app w).
Proof.
  unfold settle. destruct (inflight w !! i) as [p|]; [|done].
  destruct p, r; done.
Qed.

Lemma step_pagination_ok w e :
  pagination_ok (app w) → pagination_ok (app (step w e)).
Proof.
  intros Hok.
  destruct e; simpl; try (apply update_pagination_ok; exact Hok);
    try exact Hok.
  - apply update_pagination_ok. by split.
  - destruct (prevDisabled _); [done|]. apply update_pagination_ok.
    apply (apply_pagination_ok _ PrevPage Hok).
  - destruct (nextDisabled _ _); [done|]. apply update_pagination_ok.
    apply (apply_pagination_ok _ NextPage Hok).
  - by destruct confirmed.
  - unfold pagination_ok. by rewrite settle_pagination.
Qed.

Lemma run_pagination_ok events :
  ∀ w, pagination_ok (app w) → pagination_ok (app (run w events)).
Proof.
  induction events as [|e events IH]; simpl; [done|].
  intros w Hok. by apply IH, step_pagination_ok.
Qed.

Lemma mounted_pagination_ok : pagination_ok (app mounted).
Proof. by split. Qed.

(** C8: after any sequence of operations from the initial state, [skip] is
    not negative and [limit] is positive; and [prevPage] at skip 0 leaves
    skip at 0.  The same holds after any sequence of events of the page. *)
Theorem skip_nonneg_limit_pos (ops : list Op) (events : list Event) :
  (let a := foldl apply initialState ops in
   0 ≤ skip (pagination a) ∧ 0 < limit (pagination a) ∧
   (skip (pagination a) = 0 → skip (pagination (prevPage a)) = 0)) ∧
  (let a := app (run mounted events) in
   0 ≤ skip (pagination a) ∧ 0 < limit (pagination a) ∧
   (skip (pagination a) = 0 → skip (pagination (prevPage a)) = 0)).
Proof.
  cbv zeta.
  destruct (foldl_apply_pagination_ok ops _ initialState_pagination_ok)
    as [Hskip Hlimit].
  destruct (run_pagination_ok events _ mounted_pagination_ok)
    as [Hskip' Hlimit'].
  simpl. split_and!; lia.
Qed.

(** C9: the two [disabled] flags, the window and the line shown are
    functions of [pagination] and [totalStudents] alone, with the values the
    claim gives: the line reads "Showing skip+1 to min(skip+limit, total) of
    total students" in every state.  With 45 students the first page reads
    "1 to 20 of 45", the second "21 to 40 of 45", and two [nextPage] calls
    reach skip 40, "41 to 45 of 45", Next disabled (and a click on it changes
    nothing); with no student the line reads "1 to 0 of 0". *)
Theorem pagination_bar (p : Pagination) (total : Z) :
  (nextDisabled p total = true ↔ skip p + limit p >= total) ∧
  (prevDisabled p = true ↔ skip p = 0) ∧
  window p total = (skip p + 1, Z.min (skip p + limit p) total, total) ∧
  showing p total
  = "Showing " +:+ toString (skip p + 1)
    +:+ " to " +:+ toString (Z.min (skip p + limit p) total)
    +:+ " of " +:+ toString total +:+ " students" ∧
  (let line w := showing (pagination (app w)) (totalStudents (app w)) in
   let page1 := [ClickNav ViewStudents;
                 Settle 1 (RespStudents [ann; bob] 45)] in
   let page2 :=
     (page1 ++ [ClickNext; Settle 2 (RespStudents [ann; bob] 45)])%list in
   line (run mounted page1) = "Showing 1 to 20 of 45 students" ∧
   line (run mounted page2) = "Showing 21 to 40 of 45 students" ∧
   window (pagination (app (run mounted page2))) 45 = (21, 40, 45) ∧
   nextDisabled (pagination (app (run mounted page1))) 45 = false ∧
   nextDisabled (pagination (app (run mounted page2))) 45 = false ∧
   prevDisabled (pagination (app (run mounted page1))) = true ∧
   prevDisabled (pagination (app (run mounted page2))) = false) ∧
  (let events := [ClickNav ViewStudents;
                   Settle 1 (RespStudents [ann; bob] 45);
                   ClickNext; Settle 2 (RespStudents [ann; bob] 45);
                   ClickNext; Settle 3 (RespStudents [ann; bob] 45)] in
   let w := run mounted events in
   let a := app w in
   feasible mounted events = true ∧
   pagination a = pagination (nextPage (nextPage initialState)) ∧
   skip (pagination a) = 40 ∧ limit (pagination a) = 20 ∧
   showing (pagination a) (totalStudents a)
   = "Showing 41 to 45 of 45 students" ∧
   nextDisabled (pagination a) (totalStudents a) = true ∧
   step w ClickNext = w) ∧
  (let events := [ClickNav ViewStudents; Settle 1 (RespStudents [] 0)] in
   let w := run mounted events in
   feasible mounted events = true ∧
   students (app w) = [] ∧ totalStudents (app w) = 0 ∧
   showing (pagination (app w)) (totalStudents (app w))
   = "Showing 1 to 0 of 0 students" ∧
   prevDisabled (pagination (app w)) = true ∧
   nextDisabled (pagination (app w)) (totalStudents (app w)) = true).
Proof.
  split_and!.
  - unfold nextDisabled. apply bool_decide_eq_true.
  - unfold prevDisabled. apply bool_decide_eq_true.
  - reflexivity.
  - reflexivity.
  - by vm_compute.
  - by vm_compute.
  - by vm_compute.
Qed.

(** ** Requests in flight *)

(** Every [await] of the page sits in a [try] with a [catch]: whatever is
    pending, a rejection runs a handler. *)
Lemma rejections_are_caught p error : is_Some (resume p (RespError error)).
Proof. destruct p; simpl; eauto. Qed.

Lemma get_skip_limit a :
  get "skip" (params a) = Some (toString (skip (pagination a))) ∧
  get "limit" (params a) = Some (toString (limit (pagination a))).
Proof. by rewrite params_shape. Qed.

(** ** Filter changes and the pagination window *)

Lemma bool_decide_ne_refl (x : string) : bool_decide (x ≠ x) = false.
Proof. by apply bool_decide_eq_false_2; intros H. Qed.

(** C1, as stated, fails: on the second page (skip 20), typing a search term
    leaves skip at 20 and the query goes out with [skip=20]. *)
Lemma search_change_keeps_skip :
  let before := [ClickNav ViewStudents;
                 Settle 1 (RespStudents [ann; bob] 45);
                 ClickNext;
                 Settle 2 (RespStudents [ann; bob] 45)] in
  let w := run mounted before in
  let w' := step w (ChangeSearch "a") in
  feasible mounted (before ++ [ChangeSearch "a"]) = true ∧
  activeView (app w) = ViewStudents ∧
  skip (pagination (app w)) = 20 ∧
  skip (pagination (app w')) = 20 ∧
  skip (pagination (app w')) ≠ 0 ∧
  log w' = (log w ++
    [Http (GetStudents [("skip", "20"); ("limit", "20"); ("search", "a")]);
     Http (GetStudentsCount
             [("skip", "20"); ("limit", "20"); ("search", "a")])])%list.
Proof. by vm_compute. Qed.

(** C1, amended: a change of the search term, the grade filter or the status
    filter in the students view replaces that field only; [pagination] (skip
    and limit) is as before, and the query sent for a new value carries the
    skip and the limit in effect before the change. *)
Theorem filter_change_keeps_pagination (w : World) (value : string) :
  activeView (app w) = ViewStudents →
  filter_change_outcome w (step w (ChangeSearch value))
    (setSearchTerm value (app w)) (searchTerm (app w) ≠ value) ∧
  filter_change_outcome w (step w (ChangeGrade value))
    (setFilterGrade value (app w)) (filterGrade (app w) ≠ value) ∧
  filter_change_outcome w (step w (ChangeStatus value))
    (setFilterStatus value (app w)) (filterStatus (app w) ≠ value).
Proof.
  intros Hview. unfold filter_change_outcome, step, update, deps_changed.
  simpl. rewrite Hview. simpl. rewrite !bool_decide_ne_refl, ?orb_false_r.
  simpl. destruct (get_skip_limit (app w)) as [Hskip Hlimit].
  split_and!;
    try (case_bool_decide; [unfold effect; simpl; rewrite Hview|];
         reflexivity).
  all: try (intros Hne; rewrite bool_decide_eq_false_2 by done;
            reflexivity).
  all: intros Hne; rewrite bool_decide_eq_true_2 by done; unfold effect;
       simpl; rewrite Hview; simpl; rewrite <- app_assoc; by split_and!.
Qed.

Lemma filter_change_keeps_pagination_witness :
  let w := run mounted [ClickNav ViewStudents] in
  filter_change_outcome w (step w (ChangeSearch "a"))
    (setSearchTerm "a" (app w)) (searchTerm (app w) ≠ "a") ∧
  filter_change_outcome w (step w (ChangeGrade "a"))
    (setFilterGrade "a" (app w)) (filterGrade (app w) ≠ "a") ∧
  filter_change_outcome w (step w (ChangeStatus "a"))
    (setFilterStatus "a" (app w)) (filterStatus (app w) ≠ "a").
Proof.
  intros w. apply (filter_change_keeps_pagination w "a"). reflexivity.
Defined.

(** ** Overlapping loads of the students list *)

Lemma settle_students i data count w :
  inflight w !! i = Some AwaitStudents →
  let w' := settle i (RespStudents data count) w in
  students (app w') = data ∧ totalStudents (app w') = count ∧
  loading (app w') = false ∧
  inflight w' = delete i (inflight w) ∧ log w' = log w.
Proof.
  intros Hi. cbv zeta.
  unfold settle. rewrite Hi. by split_and!.
Qed.

(** Promises are numbered in the order of their [await]: among two promises
    in flight, the one with the smaller number was issued first. *)
Lemma await_fresh p w :
  inflight (await p w) !! nextId w = Some p ∧
  nextId (await p w) = S (nextId w).
Proof. simpl. by rewrite lookup_insert_eq. Qed.

Create HintDb ids discriminated.

Lemma ids_below_await p w : ids_below w → ids_below (await p w).
Proof.
  intros Hw i. simpl. rewrite lookup_insert.
  case_decide; [lia|]. intros Hi%Hw. lia.
Qed.

Lemma ids_below_retire i w : ids_below w → ids_below (retire i w).
Proof.
  intros Hw j. simpl. rewrite lookup_delete.
  case_decide; [by intros []|]. apply Hw.
Qed.

Lemma ids_below_emit e w : ids_below w → ids_below (emit e w).
Proof. done. Qed.

Lemma ids_below_setApp f w : ids_below w → ids_below (setApp f w).
Proof. done. Qed.

Lemma ids_below_setStudentForm v w :
  ids_below w → ids_below (setStudentForm v w).
Proof. done. Qed.

Lemma ids_below_setTeacherForm v w :
  ids_below w → ids_below (setTeacherForm v w).
Proof. done. Qed.

Lemma ids_below_setCourseForm v w :
  ids_below w → ids_below (setCourseForm v w).
Proof. done. Qed.

#[local] Hint Resolve ids_below_await ids_below_retire ids_below_emit
  ids_below_setApp ids_below_setStudentForm ids_below_setTeacherForm
  ids_below_setCourseForm : ids.

(** Open the loaders and handlers down to [await], [emit] and [setApp]. *)
Ltac ids_below :=
  unfold loadDashboardStats, loadStudents, loadTeachers, loadCourses,
    handleAddStudent, handleAddTeacher, handleAddCourse, axios, alert,
    console_error;
  cbv beta; auto 10 with ids.

Lemma ids_below_effect w : ids_below w → ids_below (effect w).
Proof. unfold effect. destruct (activeView (app w)); ids_below. Qed.

Lemma ids_below_update fresh f w : ids_below w → ids_below (update fresh f w).
Proof.
  unfold update. intros Hw.
  destruct (deps_changed _ _ _); [apply ids_below_effect|]; auto with ids.
Qed.

Lemma ids_below_settle i r w : ids_below w → ids_below (settle i r w).
Proof.
  unfold settle. intros Hw. destruct (inflight w !! i) as [p|]; [|done].
  destruct p, r; unfold resume; try done; ids_below.
Qed.

Lemma ids_below_step w e : ids_below w → ids_below (step w e).
Proof.
  intros Hw. destruct e; unfold step;
    try (apply ids_below_update; exact Hw); try exact Hw.
  - destruct (prevDisabled _); [done|]. by apply ids_below_update.
  - destruct (nextDisabled _ _); [done|]. by apply ids_below_update.
  - unfold handleDeleteStudent. destruct confirmed; [|done]. ids_below.
  - unfold AddStudentModal_handleSubmit. ids_below.
  - unfold AddTeacherModal_handleSubmit. ids_below.
  - unfold AddCourseModal_handleSubmit. ids_below.
  - by apply ids_below_settle.
Qed.

Lemma ids_below_run events : ∀ w, ids_below w → ids_below (run w events).
Proof.
  induction events as [|e events IH]; simpl; [done|].
  intros w Hw. by apply IH, ids_below_step.
Qed.

Lemma ids_below_mounted : ids_below mounted.
Proof.
  intros i. simpl. rewrite lookup_insert. case_decide; [lia|].
  rewrite lookup_empty. by intros [].
Qed.

(** C2, as stated, fails: the list is loaded on entering the students view
    (promise 1), then again for the search term "a" (promise 2); the answer
    to the second load arrives first, and the answer to the first one, which
    knows nothing of the search term, replaces it. *)
Lemma stale_response_overwrites :
  let issue := [ClickNav ViewStudents; ChangeSearch "a"] in
  let newest := RespStudents [ann] 1 in
  let stale := RespStudents [ann; bob] 2 in
  let w := run mounted issue in
  let w' := run w [Settle 2 newest; Settle 1 stale] in
  feasible mounted (issue ++ [Settle 2 newest; Settle 1 stale]) = true ∧
  inflight w = {[ 0%nat := AwaitDashboardStats; 1%nat := AwaitStudents;
                  2%nat := AwaitStudents ]} ∧
  log w = [Http GetDashboardStats;
           Http (GetStudents [("skip", "0"); ("limit", "20")]);
           Http (GetStudentsCount [("skip", "0"); ("limit", "20")]);
           Http (GetStudents
                   [("skip", "0"); ("limit", "20"); ("search", "a")]);
           Http (GetStudentsCount
                   [("skip", "0"); ("limit", "20"); ("search", "a")])] ∧
  searchTerm (app w') = "a" ∧
  students (app w') = [ann; bob] ∧ totalStudents (app w') = 2 ∧
  students (app w') ≠ [ann] ∧ totalStudents (app w') ≠ 1.
Proof. by vm_compute. Qed.

(** C2, amended: a load that succeeds commits its page and count when it
    settles, whatever was issued since.  With two loads in flight, the list
    and the count shown after both have settled are those of the load that
    settled last: of the newer one when the answers come in the order of the
    requests, of the older one when they come in the other order. *)
Theorem last_settled_wins (w : World) (i j : nat)
    (data1 data2 : list Student.t) (count1 count2 : Z) :
  (i < j)%nat →
  inflight w !! i = Some AwaitStudents →
  inflight w !! j = Some AwaitStudents →
  let in_order :=
    run w [Settle i (RespStudents data1 count1);
           Settle j (RespStudents data2 count2)] in
  let reversed :=
    run w [Settle j (RespStudents data2 count2);
           Settle i (RespStudents data1 count1)] in
  (students (app in_order) = data2 ∧ totalStudents (app in_order) = count2) ∧
  (students (app reversed) = data1 ∧ totalStudents (app reversed) = count1).
Proof.
  intros Hlt Hi Hj. simpl.
  destruct (settle_students i data1 count1 w Hi) as (_ & _ & _ & Hin1 & _).
  destruct (settle_students j data2 count2 w Hj) as (_ & _ & _ & Hin2 & _).
  split.
  - edestruct (settle_students j data2 count2) as (? & ? & _); [|by eauto].
    rewrite Hin1, lookup_delete_ne by lia. done.
  - edestruct (settle_students i data1 count1) as (? & ? & _); [|by eauto].
    rewrite Hin2, lookup_delete_ne by lia. done.
Qed.

Lemma last_settled_wins_witness :
  let w := run mounted [ClickNav ViewStudents; ChangeSearch "a"] in
  let in_order :=
    run w [Settle 1 (RespStudents [ann; bob] 2);
           Settle 2 (RespStudents [ann] 1)] in
  let reversed :=
    run w [Settle 2 (RespStudents [ann] 1);
           Settle 1 (RespStudents [ann; bob] 2)] in
  (students (app in_order) = [ann] ∧ totalStudents (app in_order) = 1) ∧
  (students (app reversed) = [ann; bob] ∧ totalStudents (app reversed) = 2).
Proof.
  intros w.
  apply (last_settled_wins w 1 2 [ann; bob] [ann] 2 1);
    [lia | reflexivity | reflexivity].
Defined.

(** ** The creation dialogs *)

(** C3, as stated, fails: the student form is filled in and submitted, the
    backend refuses the student id; the dialog is still open and the error is
    shown, but the form is back to its initial record. *)
Lemma failed_create_clears_form :
  let w := filling_in in
  let submit := [SubmitStudent; Settle 2 (RespError duplicate_id)] in
  let w' := run w submit in
  feasible mounted (filling_in_events ++ submit) = true ∧
  studentForm w
  = StudentForm.mk "S001" "Ann" "Lee" "ann@example.org" "" "2015-04-01"
      "male" "Grade 1" "" "" "" "" ∧
  isOpen AddStudent (app w') = true ∧
  log w' = (log w ++
            [Http (PostStudent (studentForm w));
             ConsoleError "Error adding student:" duplicate_id;
             Alert "Error adding student: Student ID already exists"])%list ∧
  studentForm w' = StudentForm.initial ∧
  studentForm w' ≠ studentForm w.
Proof. by vm_compute. Qed.

(** C3, amended: submitting a creation form (student, teacher or course)
    sends the create request with the buffer as it is and sets the buffer
    back to its initial record at once, before the answer is known.  When the
    create call fails, the dialog stays as it was, the buffer is not touched
    again and the error is logged and shown; when it succeeds, the dialog is
    closed and the buffer is not touched again. *)
Theorem submit_resets_buffer (d : Dialog) (w0 w : World) (i : nat)
    (p : Pending) (error : HttpError) :
  inflight w !! i = Some p →
  awaits_create d p →
  (let w1 := step w0 (Submit d) in
   buffer_is_initial d w1 ∧ app w1 = app w0 ∧
   log w1 = (log w0 ++ [Http (create_request d w0)])%list ∧
   ∃ p1, inflight w1 !! nextId w0 = Some p1 ∧ awaits_create d p1) ∧
  (let failed := step w (Settle i (RespError error)) in
   app failed = app w ∧ buffers failed = buffers w ∧
   log failed = (log w ++ create_failure_effects d error)%list) ∧
  (let created := step w (Settle i RespDone) in
   isOpen d (app created) = false ∧ buffers created = buffers w).
Proof.
  intros Hi Hp. split_and!.
  - destruct d; simpl; rewrite lookup_insert_eq; split_and!;
      first [reflexivity | eexists; split; [reflexivity | exact I]].
  - simpl. unfold settle. rewrite Hi.
    destruct d, p; try done; simpl; rewrite <- app_assoc; by split_and!.
  - simpl. unfold settle. rewrite Hi.
    destruct d, p; try done; simpl; by split_and!.
Qed.

Lemma submit_resets_buffer_witness :
  let w0 := filling_in in
  let w := step w0 SubmitStudent in
  (let w1 := step w0 SubmitStudent in
   buffer_is_initial AddStudent w1 ∧ app w1 = app w0 ∧
   log w1 = (log w0 ++ [Http (create_request AddStudent w0)])%list ∧
   ∃ p1, inflight w1 !! nextId w0 = Some p1 ∧ awaits_create AddStudent p1) ∧
  (let failed := step w (Settle 2 (RespError duplicate_id)) in
   app failed = app w ∧ buffers failed = buffers w ∧
   log failed
   = (log w ++ create_failure_effects AddStudent duplicate_id)%list) ∧
  (let created := step w (Settle 2 RespDone) in
   isOpen AddStudent (app created) = false ∧ buffers created = buffers w).
Proof.
  intros w0 w.
  apply (submit_resets_buffer AddStudent w0 w 2 (AwaitAddStudent (app w0))
           duplicate_id); [reflexivity | exact I].
Defined.

(** ** Failed create and delete requests *)

Lemma or_else_detail error msg :
  detail error = Some msg → msg ≠ "" →
  or_else (detail error) (message error) = msg.
Proof.
  intros -> Hmsg. unfold or_else, truthy. by rewrite bool_decide_eq_true_2.
Qed.

(** C5: when the create-student call is rejected with a detail message, the
    [catch] block runs: the alert shows that message after the words "Error
    adding student: ", the rejection goes no further, and nothing of the
    [App] state changes (list, count, filters, pagination); no request is
    sent.  The call itself, before the answer, changes no state either. *)
Theorem create_student_rejected (w : World) (i : nat) (closure : AppState)
    (error : HttpError) (msg : string) :
  inflight w !! i = Some (AwaitAddStudent closure) →
  detail error = Some msg →
  msg ≠ "" →
  let w' := step w (Settle i (RespError error)) in
  log w' = (log w ++ [ConsoleError "Error adding student:" error;
                      Alert ("Error adding student: " +:+ msg)])%list ∧
  is_Some (resume (AwaitAddStudent closure) (RespError error)) ∧
  app w' = app w ∧
  students (app w') = students (app w) ∧
  totalStudents (app w') = totalStudents (app w) ∧
  searchTerm (app w') = searchTerm (app w) ∧
  filterGrade (app w') = filterGrade (app w) ∧
  filterStatus (app w') = filterStatus (app w) ∧
  pagination (app w') = pagination (app w) ∧
  inflight w' = delete i (inflight w) ∧ nextId w' = nextId w ∧
  (∀ studentData w0, app (handleAddStudent studentData w0) = app w0).
Proof.
  intros Hi Hdetail Hmsg. simpl. unfold settle. rewrite Hi. simpl.
  rewrite (or_else_detail error msg) by done. rewrite <- app_assoc.
  pose proof (rejections_are_caught (AwaitAddStudent closure) error).
  by split_and!.
Qed.

Lemma create_student_rejected_witness :
  let w := step filling_in SubmitStudent in
  let w' := step w (Settle 2 (RespError duplicate_id)) in
  log w' = (log w ++ [ConsoleError "Error adding student:" duplicate_id;
                      Alert ("Error adding student: "
                             +:+ "Student ID already exists")])%list ∧
  is_Some (resume (AwaitAddStudent (app filling_in))
             (RespError duplicate_id)) ∧
  app w' = app w ∧
  students (app w') = students (app w) ∧
  totalStudents (app w') = totalStudents (app w) ∧
  searchTerm (app w') = searchTerm (app w) ∧
  filterGrade (app w') = filterGrade (app w) ∧
  filterStatus (app w') = filterStatus (app w) ∧
  pagination (app w') = pagination (app w) ∧
  inflight w' = delete 2%nat (inflight w) ∧ nextId w' = nextId w ∧
  (∀ studentData w0, app (handleAddStudent studentData w0) = app w0).
Proof.
  intros w.
  apply (create_student_rejected w 2 (app filling_in) duplicate_id
           "Student ID already exists");
    [reflexivity | reflexivity | discriminate].
Defined.

(** C10: when the delete request fails, the [catch] block only logs: no
    alert, no request, and nothing of the [App] state changes.  The students
    load goes out when the delete succeeds, not when the button is clicked;
    a declined confirmation does nothing.  A failed create, in contrast,
    raises an alert. *)
Theorem delete_student_failed (w : World) (i : nat) (closure : AppState)
    (error : HttpError) :
  inflight w !! i = Some (AwaitDeleteStudent closure) →
  (let failed := step w (Settle i (RespError error)) in
   log failed = (log w ++ [ConsoleError "Error deleting student:" error])%list ∧
   app failed = app w ∧
   inflight failed = delete i (inflight w) ∧ nextId failed = nextId w) ∧
  (let deleted := step w (Settle i RespDone) in
   log deleted = (log w ++ students_requests closure)%list ∧
   inflight deleted = <[nextId w := AwaitStudents]> (delete i (inflight w))) ∧
  (∀ w0 studentId,
     let clicked := step w0 (ClickDelete studentId true) in
     log clicked = (log w0 ++ [Http (DeleteStudent studentId)])%list ∧
     app clicked = app w0 ∧
     inflight clicked
     = <[nextId w0 := AwaitDeleteStudent (app w0)]> (inflight w0) ∧
     step w0 (ClickDelete studentId false) = w0) ∧
  (∀ w0 j c,
     inflight w0 !! j = Some (AwaitAddStudent c) →
     log (step w0 (Settle j (RespError error)))
     = (log w0 ++ create_failure_effects AddStudent error)%list).
Proof.
  intros Hi. split_and!.
  - simpl. unfold settle. rewrite Hi. by split_and!.
  - simpl. unfold settle. rewrite Hi. simpl. rewrite <- app_assoc.
    by split_and!.
  - intros w0 studentId. by split_and!.
  - intros w0 j c Hj. simpl. unfold settle. rewrite Hj. simpl.
    by rewrite <- app_assoc.
Qed.

Lemma delete_student_failed_witness :
  let w0 := run mounted [ClickNav ViewStudents;
                         Settle 1 (RespStudents [ann; bob] 2)] in
  let w := step w0 (ClickDelete "2" true) in
  let error := {| detail := Some "Student not found";
                  message := "Request failed with status code 404" |} in
  let failed := step w (Settle 2 (RespError error)) in
  log failed = (log w ++ [ConsoleError "Error deleting student:" error])%list ∧
  app failed = app w ∧ students (app failed) = [ann; bob] ∧
  inflight failed = delete 2%nat (inflight w) ∧ nextId failed = nextId w.
Proof.
  intros w0 w error.
  destruct (delete_student_failed w 2 (app w0) error eq_refl)
    as ((Hlog & Happ & Hin & Hid) & _).
  split_and!; [exact Hlog | exact Happ | | exact Hin | exact Hid].
  reflexivity.
Defined.

(** * Further properties of the code *)

(** ** Page turns *)

(** An event of the page leaves [pagination] alone or changes it as one of
    the three operations does. *)
Lemma update_pagination fresh f w :
  pagination (app (update fresh f w)) = pagination (f (app w)).
Proof.
  unfold update. destruct (deps_changed _ _ _); [|done].
  by rewrite loader_pagination.
Qed.

Lemma step_pagination_cases w e :
  pagination (app (step w e)) = pagination (app w) ∨
  ∃ o, pagination (app (step w e)) = pagination (apply (app w) o).
Proof.
  destruct e; simpl; rewrite ?update_pagination; try (by left).
  - right. by exists ResetFilters.
  - destruct (prevDisabled _); [by left|].
    right. exists PrevPage. by rewrite update_pagination.
  - destruct (nextDisabled _ _); [by left|].
    right. exists NextPage. by rewrite update_pagination.
  - left. by destruct confirmed.
  - left. apply settle_pagination.
Qed.

Lemma apply_on_page_boundary a o :
  on_page_boundary a → on_page_boundary (apply a o).
Proof.
  intros (k & Hk & Hskip & Hlimit). destruct o; simpl;
    try (by exists k).
  - exists 0. by split_and!.
  - exists (k + 1). simpl. split_and!; lia.
  - exists (Z.max 0 (k - 1)). simpl. split_and!; lia.
Qed.

Lemma foldl_apply_on_page_boundary ops :
  ∀ a, on_page_boundary a → on_page_boundary (foldl apply a ops).
Proof.
  induction ops as [|o ops IH]; simpl; [done|].
  intros a Ha. by apply IH, apply_on_page_boundary.
Qed.

Lemma step_on_page_boundary w e :
  on_page_boundary (app w) → on_page_boundary (app (step w e)).
Proof.
  intros Hw. unfold on_page_boundary.
  destruct (step_pagination_cases w e) as [->|[o ->]]; [done|].
  by apply apply_on_page_boundary.
Qed.

Lemma run_on_page_boundary events :
  ∀ w, on_page_boundary (app w) → on_page_boundary (app (run w events)).
Proof.
  induction events as [|e events IH]; simpl; [done|].
  intros w Hw. by apply IH, step_on_page_boundary.
Qed.

Lemma initialState_on_page_boundary : on_page_boundary initialState.
Proof. exists 0. by split_and!. Qed.

(** X1: [skip] is always a multiple of [limit]: after any sequence of
    operations from the initial state, and after any sequence of events of
    the page, skip is 20 times a whole number of pages and limit is 20. *)
Theorem skip_multiple_of_limit (ops : list Op) (events : list Event) :
  on_page_boundary (foldl apply initialState ops) ∧
  on_page_boundary (app (run mounted events)).
Proof.
  split.
  - apply foldl_apply_on_page_boundary, initialState_on_page_boundary.
  - apply run_on_page_boundary, initialState_on_page_boundary.
Qed.

(** X2: page turns undo each other.  In any state reached from the initial
    one, [nextPage] then [prevPage] gives back the pagination; [prevPage]
    then [nextPage] gives it back unless skip is 0, where [prevPage] stays
    and the pair moves one page forward. *)
Theorem page_turns_round_trip (ops : list Op) :
  let a := foldl apply initialState ops in
  pagination (prevPage (nextPage a)) = pagination a ∧
  (skip (pagination a) ≠ 0 →
   pagination (nextPage (prevPage a)) = pagination a) ∧
  (skip (pagination a) = 0 →
   pagination (nextPage (prevPage a)) = pagination (nextPage a)).
Proof.
  cbv zeta.
  destruct (foldl_apply_on_page_boundary ops _ initialState_on_page_boundary)
    as (k & Hk & Hskip & Hlimit).
  revert Hskip Hlimit. generalize (foldl apply initialState ops) as a.
  intros a. simpl. destruct (pagination a) as [s l]. simpl.
  intros -> ->. split_and!; intros; f_equal; lia.
Qed.

(** X3: a click on Next that is not disabled moves skip forward by limit and
    stays inside the count: the first row of the new window exists. *)
Theorem next_click_stays_in_count (w : World) :
  nextDisabled (pagination (app w)) (totalStudents (app w)) = false →
  let w' := step w ClickNext in
  skip (pagination (app w'))
  = skip (pagination (app w)) + limit (pagination (app w)) ∧
  limit (pagination (app w')) = limit (pagination (app w)) ∧
  skip (pagination (app w')) < totalStudents (app w).
Proof.
  intros Hnext. simpl. rewrite Hnext, update_pagination. simpl.
  apply bool_decide_eq_false in Hnext. split_and!; [done|done|lia].
Qed.

Lemma next_click_stays_in_count_witness :
  let w := run mounted [ClickNav ViewStudents;
                        Settle 1 (RespStudents [ann; bob] 45)] in
  let w' := step w ClickNext in
  skip (pagination (app w'))
  = skip (pagination (app w)) + limit (pagination (app w)) ∧
  limit (pagination (app w')) = limit (pagination (app w)) ∧
  skip (pagination (app w')) < totalStudents (app w).
Proof. intros w. apply (next_click_stays_in_count w). reflexivity. Defined.

(** X4: the window shown.  With skip not negative, limit positive and skip
    below the count, the line "Showing first to last of total" has
    first <= last <= total and counts at most limit rows; it counts exactly
    limit rows whenever Next is enabled. *)
Theorem window_bounds (p : Pagination) (total : Z) :
  0 ≤ skip p → 0 < limit p → skip p < total →
  let '(first, last, of_total) := window p total in
  1 ≤ first ∧ first ≤ last ∧ last ≤ total ∧ of_total = total ∧
  last - first + 1 ≤ limit p ∧
  (nextDisabled p total = false → last - first + 1 = limit p).
Proof.
  intros Hskip Hlimit Htotal. simpl.
  split_and!; try lia.
  intros Hnext%bool_decide_eq_false. lia.
Qed.

Lemma window_bounds_witness :
  let p := {| skip := 40; limit := 20 |} in
  let '(first, last, of_total) := window p 45 in
  1 ≤ first ∧ first ≤ last ∧ last ≤ 45 ∧ of_total = 45 ∧
  last - first + 1 ≤ limit p ∧
  (nextDisabled p 45 = false → last - first + 1 = limit p).
Proof.
  intros p. apply (window_bounds p 45); simpl; lia.
Defined.

(** ** What the effect sends *)

Lemma effect_spec w :
  log (effect w) = (log w ++ view_requests (app w))%list ∧
  inflight (effect w)
  = <[nextId w := view_loader (activeView (app w))]> (inflight w) ∧
  nextId (effect w) = S (nextId w).
Proof.
  unfold effect, view_requests.
  destruct (activeView (app w)); simpl; rewrite <- ?app_assoc; done.
Qed.

Lemma deps_changed_nav v a :
  deps_changed false a (setActiveView v a)
  = bool_decide (activeView a ≠ v).
Proof.
  unfold deps_changed. simpl. by rewrite !bool_decide_ne_refl, !orb_false_r.
Qed.

(** X5: a click in the navigation bar on the view already shown sends
    nothing; a click on another view shows it and sends the requests of that
    view and no other: the statistics for the dashboard, the page and the
    count for the students, one listing for the teachers or the courses. *)
Theorem navigation_loads_the_view (w : World) (v : View) :
  let w' := step w (ClickNav v) in
  activeView (app w') = v ∧
  (v = activeView (app w) →
   log w' = log w ∧ inflight w' = inflight w) ∧
  (v ≠ activeView (app w) →
   log w' = (log w ++ view_requests (setActiveView v (app w)))%list ∧
   inflight w' = <[nextId w := view_loader v]> (inflight w)).
Proof.
  cbv zeta. unfold step, update.
  change (app (setApp (setActiveView v) w)) with (setActiveView v (app w)).
  rewrite deps_changed_nav. case_bool_decide as Hv.
  - destruct (effect_spec (setApp (setActiveView v) w)) as (Hlog & Hin & _).
    split_and!.
    + unfold effect. simpl. by destruct v.
    + intros ->. done.
    + intros _. by rewrite Hlog, Hin.
  - split_and!; [done|done|]. intros Hne. by destruct Hne.
Qed.

(** X6: with the students view shown, Reset Filters always sends a load with
    skip 0, limit 20 and no filter, also when the filters and the pagination
    already have these values: the pagination object is a new one each
    time. *)
Theorem reset_always_reloads (w : World) :
  activeView (app w) = ViewStudents →
  let w' := step w ClickResetFilters in
  log w' = (log w ++
            [Http (GetStudents [("skip", "0"); ("limit", "20")]);
             Http (GetStudentsCount [("skip", "0"); ("limit", "20")])])%list ∧
  inflight w' = <[nextId w := AwaitStudents]> (inflight w) ∧
  loading (app w') = true ∧
  pagination (app w') = {| skip := 0; limit := 20 |}.
Proof.
  intros Hview. simpl. unfold update, deps_changed. simpl.
  rewrite orb_true_r. simpl. unfold effect. simpl. rewrite Hview. simpl.
  rewrite <- app_assoc. by split_and!.
Qed.

Lemma reset_always_reloads_witness :
  let w := run mounted [ClickNav ViewStudents;
                        Settle 1 (RespStudents [ann; bob] 2)] in
  let w' := step w ClickResetFilters in
  log w' = (log w ++
            [Http (GetStudents [("skip", "0"); ("limit", "20")]);
             Http (GetStudentsCount [("skip", "0"); ("limit", "20")])])%list ∧
  inflight w' = <[nextId w := AwaitStudents]> (inflight w) ∧
  loading (app w') = true ∧
  pagination (app w') = {| skip := 0; limit := 20 |}.
Proof. intros w. apply (reset_always_reloads w). reflexivity. Defined.

(** ** The page request and its count request *)

Lemma paired_from_app o l1 l2 :
  paired_from o l1 = true → paired l2 = true →
  paired_from o (l1 ++ l2) = true.
Proof.
  revert o. induction l1 as [|e l1 IH]; intros o; simpl.
  - by intros ->%bool_decide_eq_true.
  - destruct o as [ps|], e as [[]| |]; try done; try apply IH.
    intros [Hps Hl1]%andb_true_iff Hl2. apply andb_true_iff.
    split; [done|]. by apply IH.
Qed.

Lemma paired_students_requests a : paired (students_requests a) = true.
Proof.
  unfold paired, students_requests. simpl.
  by rewrite bool_decide_eq_true_2.
Qed.

Lemma paired_view_requests a : paired (view_requests a) = true.
Proof.
  unfold view_requests.
  destruct (activeView a); try done. apply paired_students_requests.
Qed.

Lemma update_log fresh f w :
  log (update fresh f w)
  = (log w ++ if deps_changed fresh (app w) (f (app w))
              then view_requests (f (app w)) else [])%list.
Proof.
  unfold update. change (app (setApp f w)) with (f (app w)).
  destruct (deps_changed _ _ _).
  - by destruct (effect_spec (setApp f w)) as (-> & _).
  - simpl. by rewrite app_nil_r.
Qed.

(** What one event adds to the log. *)
Lemma step_log w e :
  ∃ l, log (step w e) = (log w ++ l)%list ∧ paired l = true.
Proof.
  assert (∀ fresh f, ∃ l,
    log (update fresh f w) = (log w ++ l)%list ∧ paired l = true) as Hupdate.
  { intros fresh f. eexists. split; [apply update_log|].
    destruct (deps_changed _ _ _); [apply paired_view_requests|done]. }
  assert (∃ l, log w = (log w ++ l)%list ∧ paired l = true) as Hsame.
  { exists []. by rewrite app_nil_r. }
  destruct e; simpl; try apply Hupdate; try apply Hsame.
  - destruct (prevDisabled _); [apply Hsame|apply Hupdate].
  - destruct (nextDisabled _ _); [apply Hsame|apply Hupdate].
  - destruct confirmed; [|apply Hsame]. by eexists.
  - by eexists.
  - by eexists.
  - by eexists.
  - unfold settle. destruct (inflight w !! i) as [p|]; [|apply Hsame].
    destruct p, r; simpl; try apply Hsame;
      rewrite <- ?app_assoc; simpl;
      try (eexists; split; [reflexivity|]; first
             [reflexivity | apply paired_students_requests]).
    all: exists []; by rewrite app_nil_r.
Qed.

Lemma run_log_paired events :
  ∀ w, paired (log w) = true → paired (log (run w events)) = true.
Proof.
  induction events as [|e events IH]; simpl; [done|].
  intros w Hw. apply IH. destruct (step_log w e) as (l & -> & Hl).
  by apply paired_from_app.
Qed.

(** X7: the page request and the count request of the students list always
    go out together, the count request right after the page request and with
    the same parameters, skip and limit included; neither is ever sent
    alone.  This holds for the log of every run of the page. *)
Theorem page_and_count_go_together (events : list Event) :
  paired (log (run mounted events)) = true.
Proof. by apply run_log_paired. Qed.

(** ** The loading flag *)

Lemma spinner_off w : loading (app w) = false → spinner_ok w.
Proof. intros Hoff Hon. congruence. Qed.

Lemma spinner_await_loader p w :
  sets_loading p = true → spinner_ok (await p w).
Proof.
  intros Hp _. exists (nextId w), p. simpl. by rewrite lookup_insert_eq.
Qed.

Lemma spinner_await p w :
  ids_below w → spinner_ok w → spinner_ok (await p w).
Proof.
  intros Hids Hw Hon. destruct (Hw Hon) as (i & q & Hi & Hq).
  exists i, q. split; [|done]. simpl. rewrite lookup_insert_ne; [done|].
  assert (i < nextId w)%nat by (apply Hids; eauto). lia.
Qed.

Lemma spinner_retire i p w :
  inflight w !! i = Some p → sets_loading p = false →
  spinner_ok w → spinner_ok (retire i w).
Proof.
  intros Hi Hp Hw Hon. destruct (Hw Hon) as (j & q & Hj & Hq).
  exists j, q. split; [|done]. simpl. rewrite lookup_delete_ne; [done|].
  intros ->. congruence.
Qed.

Lemma spinner_same w w' :
  loading (app w') = loading (app w) → inflight w' = inflight w →
  spinner_ok w → spinner_ok w'.
Proof. unfold spinner_ok. by intros -> ->. Qed.

Lemma spinner_effect w : ids_below w → spinner_ok w → spinner_ok (effect w).
Proof.
  intros Hids Hw. unfold effect.
  destruct (activeView (app w));
    first [by apply spinner_await_loader | by apply spinner_await].
Qed.

Lemma spinner_update fresh f w :
  (∀ a, loading (f a) = loading a) →
  ids_below w → spinner_ok w → spinner_ok (update fresh f w).
Proof.
  intros Hf Hids Hw. unfold update.
  assert (spinner_ok (setApp f w)) by (by eapply spinner_same; [apply Hf|..]).
  destruct (deps_changed _ _ _); [by apply spinner_effect|done].
Qed.

Lemma spinner_settle i r w :
  ids_below w → spinner_ok w → spinner_ok (settle i r w).
Proof.
  intros Hids Hw. unfold settle.
  destruct (inflight w !! i) as [p|] eqn:Hi; [|done].
  assert (sets_loading p = false → ids_below (retire i w) ∧
          spinner_ok (retire i w)) as Hretire.
  { intros Hp. split; [by apply ids_below_retire|by eapply spinner_retire]. }
  destruct p, r; simpl; try done;
    try (by apply spinner_off);
    try (by apply spinner_await_loader);
    destruct (Hretire eq_refl) as [Hids' Hw'];
    try (by apply spinner_await);
    by eapply spinner_same; [| |exact Hw'].
Qed.

Lemma spinner_step w e :
  ids_below w → spinner_ok w → spinner_ok (step w e).
Proof.
  intros Hids Hw.
  destruct e; simpl; try (by apply spinner_update); try done.
  - destruct (prevDisabled _); [done|]. by apply spinner_update.
  - destruct (nextDisabled _ _); [done|]. by apply spinner_update.
  - destruct confirmed; [|done]. by apply (spinner_await _ (emit _ w)).
  - by apply (spinner_await _ (emit _ w)).
  - by apply (spinner_await _ (emit _ w)).
  - by apply (spinner_await _ (emit _ w)).
  - by apply spinner_settle.
Qed.

Lemma spinner_run events :
  ∀ w, ids_below w → spinner_ok w → spinner_ok (run w events).
Proof.
  induction events as [|e events IH]; simpl; [done|].
  intros w Hids Hw. apply IH; [by apply ids_below_step|by apply spinner_step].
Qed.

(** X8: the spinner never turns without a reason: in every run of the page,
    whenever [loading] is true a students or statistics load is in flight,
    whose settling (with a result or an error) sets [loading] to false. *)
Theorem loading_has_a_load_in_flight (events : list Event) :
  let w := run mounted events in
  loading (app w) = true →
  ∃ i p, inflight w !! i = Some p ∧ sets_loading p = true ∧
         ∀ r, is_Some (resume p r) →
              loading (app (step w (Settle i r))) = false.
Proof.
  cbv zeta. intros Hon.
  destruct (spinner_run events mounted ids_below_mounted) as (i & p & Hi & Hp);
    [by apply spinner_await_loader|exact Hon|].
  exists i, p. split_and!; [done|done|].
  intros r [k Hk]. generalize dependent (run mounted events). intros w _ Hi.
  change (step w (Settle i r)) with (settle i r w).
  unfold settle. rewrite Hi. destruct p, r; by simplify_eq/=.
Qed.

Lemma loading_has_a_load_in_flight_witness :
  let w := run mounted [ClickNav ViewStudents] in
  ∃ i p, inflight w !! i = Some p ∧ sets_loading p = true ∧
         ∀ r, is_Some (resume p r) →
              loading (app (step w (Settle i r))) = false.
Proof.
  intros w. apply (loading_has_a_load_in_flight [ClickNav ViewStudents]).
  reflexivity.
Defined.

(** X9: the converse fails by design of the flag, which is one boolean for
    all loads: with two loads in flight, the first one to settle sets
    [loading] to false although the other is still in flight. *)
Theorem loading_cleared_by_first_answer (w : World) (i j : nat)
    (p q : Pending) (r : Response) :
  i ≠ j →
  inflight w !! i = Some p → sets_loading p = true →
  inflight w !! j = Some q → sets_loading q = true →
  is_Some (resume p r) →
  let w' := step w (Settle i r) in
  loading (app w') = false ∧ inflight w' !! j = Some q.
Proof.
  intros Hij Hi Hp Hj Hq [k Hk]. simpl. unfold settle. rewrite Hi.
  destruct p, r; simplify_eq/=; by rewrite lookup_delete_ne.
Qed.

Lemma loading_cleared_by_first_answer_witness :
  let w := run mounted [ClickNav ViewStudents; ChangeSearch "a"] in
  let w' := step w (Settle 1 (RespStudents [ann; bob] 2)) in
  loading (app w') = false ∧ inflight w' !! 2%nat = Some AwaitStudents.
Proof.
  intros w.
  apply (loading_cleared_by_first_answer w 1 2 AwaitStudents AwaitStudents);
    [lia | reflexivity | reflexivity | reflexivity | reflexivity | by eexists].
Defined.

(** X10: a load that fails (statistics, students, teachers or courses) is
    only logged: no alert, no request, and what the page shows stays as it
    was; the state changes at most in [loading], which the statistics and
    students loads set to false. *)
Theorem failed_load_keeps_the_view (w : World) (i : nat) (p : Pending)
    (error : HttpError) :
  inflight w !! i = Some p →
  is_loader p = true →
  let w' := step w (Settle i (RespError error)) in
  log w' = (log w ++ [ConsoleError (load_error_label p) error])%list ∧
  inflight w' = delete i (inflight w) ∧
  app w' = (if sets_loading p then setLoading false (app w) else app w) ∧
  buffers w' = buffers w.
Proof.
  intros Hi Hp. simpl. unfold settle. rewrite Hi.
  destruct p; simplify_eq/=; by split_and!.
Qed.

Lemma failed_load_keeps_the_view_witness :
  let w := run mounted [ClickNav ViewStudents;
                        Settle 1 (RespStudents [ann; bob] 2);
                        ChangeSearch "a"] in
  let error := {| detail := None; message := "Network Error" |} in
  let w' := step w (Settle 2 (RespError error)) in
  log w' = (log w ++ [ConsoleError (load_error_label AwaitStudents) error])%list ∧
  inflight w' = delete 2%nat (inflight w) ∧
  app w' = (if sets_loading AwaitStudents
            then setLoading false (app w) else app w) ∧
  buffers w' = buffers w.
Proof.
  intros w error.
  apply (failed_load_keeps_the_view w 2 AwaitStudents error); reflexivity.
Defined.

(** ** Create requests *)

(** The continuation a submission leaves in flight keeps the state of the
    render that submitted, and a change of the search term after it does not
    touch it. *)
Lemma submit_pending d w0 :
  let w1 := step w0 (Submit d) in
  ∃ p, inflight w1 !! nextId w0 = Some p ∧ awaits_create d p ∧
       reload_requests p = list_requests d (app w0) ∧
       nextId w1 = S (nextId w0) ∧
       log w1 = (log w0 ++ [Http (create_request d w0)])%list ∧
       inflight w1 = <[nextId w0 := p]> (inflight w0).
Proof.
  destruct d; simpl; rewrite lookup_insert_eq; eexists; by split_and!.
Qed.

Lemma update_inflight_older fresh f w i :
  (i < nextId w)%nat →
  inflight (update fresh f w) !! i = inflight w !! i.
Proof.
  intros Hi. unfold update. destruct (deps_changed _ _ _); [|done].
  destruct (effect_spec (setApp f w)) as (_ & -> & _). simpl.
  rewrite lookup_insert_ne; [done|lia].
Qed.

Lemma settle_created d w i p :
  inflight w !! i = Some p →
  awaits_create d p →
  let w' := step w (Settle i RespDone) in
  isOpen d (app w') = false ∧
  log w' = (log w ++ reload_requests p)%list ∧
  inflight w' = <[nextId w := reload_loader d]> (delete i (inflight w)).
Proof.
  intros Hi Hp. simpl. unfold settle. rewrite Hi.
  destruct d, p; try done; simpl; rewrite <- ?app_assoc; by split_and!.
Qed.

(** X11: when a create request succeeds, the handler closes its dialog and
    sends the load of its own list and nothing else: for a student, the page
    and count requests with the filters and pagination of the render that
    submitted the form, also when the search term was changed between the
    submission and the answer; for a teacher or a course, the listing
    request. *)
Theorem created_reloads_the_list (d : Dialog) (w0 : World) (value : string) :
  let w1 := step w0 (Submit d) in
  let created := step w1 (Settle (nextId w0) RespDone) in
  let w2 := step w1 (ChangeSearch value) in
  let late := step w2 (Settle (nextId w0) RespDone) in
  (isOpen d (app created) = false ∧
   log created
   = (log w0 ++ Http (create_request d w0) :: list_requests d (app w0))%list ∧
   inflight created
   = <[S (nextId w0) := reload_loader d]> (delete (nextId w0) (inflight w0))) ∧
  (isOpen d (app late) = false ∧
   log late = (log w2 ++ list_requests d (app w0))%list) ∧
  (∀ w i p, inflight w !! i = Some p → awaits_create d p →
     let w' := step w (Settle i RespDone) in
     isOpen d (app w') = false ∧
     log w' = (log w ++ reload_requests p)%list ∧
     inflight w' = <[nextId w := reload_loader d]> (delete i (inflight w))).
Proof.
  cbv zeta.
  destruct (submit_pending d w0)
    as (p & Hp & Hd & Hreload & Hnext & Hlog & Hin).
  assert (inflight (step (step w0 (Submit d)) (ChangeSearch value))
            !! nextId w0 = Some p) as Hp'.
  { simpl step at 1. rewrite update_inflight_older by lia. exact Hp. }
  pose proof (settle_created d _ _ p Hp Hd) as (Hopen & Hsent & Hflight).
  pose proof (settle_created d _ _ p Hp' Hd) as (Hopen' & Hsent' & _).
  split; [|split].
  - split_and!; [exact Hopen| |].
    + rewrite Hsent, Hlog, Hreload, <- app_assoc. done.
    + by rewrite Hflight, Hnext, Hin, delete_insert_eq.
  - split; [exact Hopen'|]. by rewrite Hsent', Hreload.
  - intros w i q. apply settle_created.
Qed.

Lemma created_reloads_the_list_witness :
  let w0 := filling_in_filtered in
  let w1 := step w0 SubmitStudent in
  let created := step w1 (Settle (nextId w0) RespDone) in
  feasible mounted
    (filling_in_filtered_events ++ [SubmitStudent; Settle 4 RespDone])
  = true ∧
  isOpen AddStudent (app created) = false ∧
  log created
  = (log w0 ++
     [Http (PostStudent (studentForm w0));
      Http (GetStudents [("skip", "20"); ("limit", "20");
                         ("grade_level", "Grade 3")]);
      Http (GetStudentsCount [("skip", "20"); ("limit", "20");
                              ("grade_level", "Grade 3")])])%list.
Proof.
  intros w0 w1 created.
  destruct (created_reloads_the_list AddStudent w0 "")
    as ((Hopen & Hlog & _) & _).
  split_and!; [by vm_compute | exact Hopen | exact Hlog].
Defined.

(** X12: when a create request is rejected without a detail message (no
    answer from the backend, or an empty detail), the alert falls back to the
    message of the error itself. *)
Theorem create_failure_falls_back_to_message (d : Dialog) (w : World)
    (i : nat) (p : Pending) (error : HttpError) :
  inflight w !! i = Some p →
  awaits_create d p →
  detail error = None ∨ detail error = Some "" →
  let w' := step w (Settle i (RespError error)) in
  log w' = (log w ++
            [ConsoleError ("Error adding " +:+ noun d +:+ ":") error;
             Alert ("Error adding " +:+ noun d +:+ ": "
                    +:+ message error)])%list ∧
  app w' = app w.
Proof.
  intros Hi Hp Hdetail. simpl. unfold settle. rewrite Hi.
  assert (or_else (detail error) (message error) = message error) as Hmsg.
  { by destruct Hdetail as [-> | ->]. }
  destruct d, p; try done; simpl; rewrite Hmsg, <- app_assoc; by split_and!.
Qed.

Lemma create_failure_falls_back_to_message_witness :
  let w := step filling_in SubmitStudent in
  let error := {| detail := None; message := "Network Error" |} in
  let w' := step w (Settle 2 (RespError error)) in
  log w' = (log w ++
            [ConsoleError ("Error adding " +:+ noun AddStudent +:+ ":") error;
             Alert ("Error adding " +:+ noun AddStudent +:+ ": "
                    +:+ message error)])%list ∧
  app w' = app w.
Proof.
  intros w error.
  apply (create_failure_falls_back_to_message AddStudent w 2
           (AwaitAddStudent (app filling_in)) error);
    [reflexivity | exact I | by left].
Defined.

(** ** Credit hours: [parseInt] after [toString] *)

Lemma digit_value_pretty (d : N) :
  (d < 10)%N → digit_value 10 (pretty_N_char d) = Some (Z.of_N d)
               ∧ is_digit (pretty_N_char d) = true.
Proof.
  intros Hd.
  assert (d = 0 ∨ d = 1 ∨ d = 2 ∨ d = 3 ∨ d = 4 ∨ d = 5 ∨ d = 6 ∨ d = 7
          ∨ d = 8 ∨ d = 9)%N as Hcases by lia.
  repeat (destruct Hcases as [->|Hcases]; [done|]). by subst.
Qed.

Lemma all_digits_pretty_N_go x : ∀ s,
  all_digits s = true → all_digits (pretty_N_go x s) = true.
Proof.
  induction (N.lt_wf_0 x) as [x _ IH]. intros s Hs.
  destruct (decide (x = 0)%N) as [->|Hx]; [done|].
  rewrite pretty_N_go_step by lia. apply IH; [apply N.div_lt; lia|].
  simpl. destruct (digit_value_pretty (x `mod` 10)) as [_ ->]; [|done].
  apply N.mod_lt. lia.
Qed.

Lemma parse_digits_pretty_N_go x : ∀ s acc,
  (0 < x)%N →
  ∃ m, parse_digits 10 (pretty_N_go x s) acc
       = parse_digits 10 s (Some (m * default 0 acc + Z.of_N x)).
Proof.
  induction (N.lt_wf_0 x) as [x _ IH]. intros s acc Hx.
  rewrite pretty_N_go_step by done.
  destruct (digit_value_pretty (x `mod` 10)) as [Hd _];
    [apply N.mod_lt; lia|].
  destruct (decide (x `div` 10 = 0)%N) as [Hdiv|Hdiv].
  - rewrite Hdiv, pretty_N_go_0. simpl. rewrite Hd. exists 10.
    assert (x `mod` 10 = x)%N as Hsmall.
    { apply N.mod_small. by apply N.div_small_iff. }
    by rewrite Hsmall.
  - destruct (IH (x `div` 10)%N)
      with (s := String (pretty_N_char (x `mod` 10)) s) (acc := acc)
      as [m ->];
      [apply N.div_lt; lia|by apply N.neq_0_lt_0|].
    simpl. rewrite Hd. exists (10 * m). do 2 f_equal.
    assert (Z.of_N x = 10 * Z.of_N (x `div` 10) + Z.of_N (x `mod` 10)) as Hx'.
    { rewrite <- (N2Z.inj_mul 10), <- N2Z.inj_add. f_equal.
      by apply N.div_mod. }
    rewrite Hx'. generalize (Z.of_N (x `div` 10)) (Z.of_N (x `mod` 10)).
    intros. lia.
Qed.

Lemma parse_digits_pretty_N x :
  parse_digits 10 (pretty x) None = Some (Z.of_N x) ∧
  all_digits (pretty x) = true.
Proof.
  unfold pretty, pretty_N. case_decide as Hx; [by subst|].
  split; [|by apply all_digits_pretty_N_go].
  destruct (parse_digits_pretty_N_go x "" None) as [m ->]; [lia|].
  simpl. f_equal. lia.
Qed.

Lemma is_digit_cases c :
  is_digit c = true →
  c ∈ ["0"; "1"; "2"; "3"; "4"; "5"; "6"; "7"; "8"; "9"]%char.
Proof. apply bool_decide_eq_true. Qed.

Lemma parseInt_digits s :
  all_digits s = true →
  parseInt s = parse_digits 10 s None ∧
  parseInt (String "-" s) = Z.opp <$> parse_digits 10 s None.
Proof.
  destruct s as [|c1 s1]; [done|]. simpl.
  intros [Hc1%is_digit_cases Hs1]%andb_true_iff.
  assert (∀ o : option Z, (λ n, 1 * n) <$> o = o) as Hone.
  { intros [n|]; simpl; [f_equal; lia|done]. }
  assert (∀ o : option Z, (λ n, -1 * n) <$> o = Z.opp <$> o) as Hopp.
  { intros [n|]; simpl; [f_equal; lia|done]. }
  destruct s1 as [|c2 s2].
  - set_unfold. destruct_or!; subst; by vm_compute.
  - simpl in Hs1. apply andb_true_iff in Hs1 as [Hc2%is_digit_cases Hs2].
    set_unfold in Hc1. set_unfold in Hc2.
    destruct Hc1 as [->|[->|[->|[->|[->|[->|[->|[->|[->|[->|[]]]]]]]]]]];
    destruct Hc2 as [->|[->|[->|[->|[->|[->|[->|[->|[->|[->|[]]]]]]]]]]];
    unfold parseInt; simpl; by rewrite ?Hone, ?Hopp.
Qed.

Lemma parseInt_pretty (n : Z) : parseInt (pretty n) = Some n.
Proof.
  unfold pretty, pretty_Z. destruct n as [|p|p].
  - done.
  - unfold pretty, pretty_positive.
    destruct (parse_digits_pretty_N (Npos p)) as [Hparse Hdigits].
    destruct (parseInt_digits _ Hdigits) as [-> _]. by rewrite Hparse.
  - unfold pretty, pretty_positive.
    destruct (parse_digits_pretty_N (Npos p)) as [Hparse Hdigits].
    destruct (parseInt_digits _ Hdigits) as [_ Hneg].
    change ("-" +:+ pretty (N.pos p)) with (String "-" (pretty (N.pos p))).
    by rewrite Hneg, Hparse.
Qed.

(** X13: for every integer a JavaScript number holds exactly (at most
    [Number.MAX_SAFE_INTEGER] in absolute value), [parseInt] reads it back as
    [toString] writes it.  So the course form submits the credit hours typed
    as such a whole number as that number, an empty field as null, and the
    other fields as they are. *)
Theorem credit_hours_coercion (f : CourseForm.t) (n : Z) :
  - MAX_SAFE_INTEGER ≤ n ≤ MAX_SAFE_INTEGER →
  parseInt (toString n) = Some n ∧
  (CourseForm.credit_hours f = toString n →
   CourseForm.s_credit_hours (CourseForm.submitData f) = CourseForm.Num n) ∧
  (CourseForm.credit_hours f = "" →
   CourseForm.s_credit_hours (CourseForm.submitData f) = CourseForm.Null) ∧
  CourseForm.s_course_code (CourseForm.submitData f) = CourseForm.course_code f ∧
  CourseForm.s_course_name (CourseForm.submitData f) = CourseForm.course_name f ∧
  CourseForm.s_description (CourseForm.submitData f) = CourseForm.description f ∧
  CourseForm.s_grade_levels (CourseForm.submitData f)
  = CourseForm.grade_levels f.
Proof.
  intros _. split_and!; try done.
  - apply parseInt_pretty.
  - intros Hf. simpl. rewrite Hf. unfold toString.
    rewrite parseInt_pretty.
    assert (truthy (pretty n) = true) as ->; [|done].
    apply truthy_spec. intros Hempty.
    pose proof (parseInt_pretty n) as Hparse. by rewrite Hempty in Hparse.
  - intros Hf. simpl. by rewrite Hf.
Qed.

Lemma credit_hours_coercion_witness :
  let f := CourseForm.mk "MATH101" "Algebra" "" "3" ["Grade 7"] in
  parseInt (toString 3) = Some 3 ∧
  (CourseForm.credit_hours f = toString 3 →
   CourseForm.s_credit_hours (CourseForm.submitData f) = CourseForm.Num 3) ∧
  (CourseForm.credit_hours f = "" →
   CourseForm.s_credit_hours (CourseForm.submitData f) = CourseForm.Null) ∧
  CourseForm.s_course_code (CourseForm.submitData f) = CourseForm.course_code f ∧
  CourseForm.s_course_name (CourseForm.submitData f) = CourseForm.course_name f ∧
  CourseForm.s_description (CourseForm.submitData f) = CourseForm.description f ∧
  CourseForm.s_grade_levels (CourseForm.submitData f)
  = CourseForm.grade_levels f.
Proof.
  intros f. apply (credit_hours_coercion f 3). by vm_compute.
Defined.

(** ** The parameters, read back *)

(** X14: no key is sent twice, the keys come in the order skip, limit,
    search, grade_level, status, and reading a filter key back from the
    parameters gives the filter of the state when it is not empty and
    nothing when it is. *)
Theorem params_read_back (a : AppState) :
  NoDup (params a).*1 ∧
  sublist (params a).*1 ["skip"; "limit"; "search"; "grade_level"; "status"] ∧
  get "search" (params a)
  = (if truthy (searchTerm a) then Some (searchTerm a) else None) ∧
  get "grade_level" (params a)
  = (if truthy (filterGrade a) then Some (filterGrade a) else None) ∧
  get "status" (params a)
  = (if truthy (filterStatus a) then Some (filterStatus a) else None).
Proof.
  unfold params.
  destruct (truthy (searchTerm a)), (truthy (filterGrade a)),
    (truthy (filterStatus a)); simpl;
    (split_and!; [by apply (bool_decide_unpack _)| |done|done|done]);
    repeat first [apply sublist_nil | apply sublist_skip
                 | apply sublist_cons].
Qed.

(** ** The grade-level multi-select, one toggle *)

(** X15: one toggle flips the membership of that grade and of no other, it
    keeps a selection free of repetitions so, and it changes the number of
    selected grades by exactly one. *)
Theorem toggle_once (l : list string) (g : string) :
  (g ∈ newGrades l g ↔ g ∉ l) ∧
  (∀ x, x ≠ g → (x ∈ newGrades l g ↔ x ∈ l)) ∧
  (NoDup l → NoDup (newGrades l g)) ∧
  (g ∉ l → length (newGrades l g) = S (length l)) ∧
  (NoDup l → g ∈ l → S (length (newGrades l g)) = length l).
Proof.
  split_and!.
  - destruct (decide (g ∈ l)) as [Hin|Hin].
    + rewrite newGrades_selected by done.
      pose proof (not_elem_of_filter_ne l g). tauto.
    + rewrite newGrades_absent by done. rewrite elem_of_app.
      split; [done|]. intros _. right. constructor.
  - intros x Hx. destruct (decide (g ∈ l)) as [Hin|Hin].
    + rewrite newGrades_selected by done. rewrite list_elem_of_filter. tauto.
    + rewrite newGrades_absent by done.
      rewrite elem_of_app, list_elem_of_singleton. tauto.
  - apply newGrades_NoDup.
  - intros Hin. rewrite newGrades_absent by done.
    rewrite length_app. simpl. lia.
  - intros Hnodup Hin. rewrite newGrades_selected by done.
    apply list_elem_of_split in Hin as (l1 & l2 & ->).
    apply NoDup_app in Hnodup as (_ & Hl1 & [Hl2 _]%NoDup_cons).
    rewrite filter_app, filter_cons_False by (intros H; by apply H).
    rewrite !filter_absent.
    + rewrite !length_app. simpl. lia.
    + done.
    + intros Hg. apply (Hl1 g Hg). constructor.
Qed.

(** ** Values chosen among fixed options *)

Lemma choices_effect w : choices (effect w) = choices w.
Proof. unfold effect. by destruct (activeView (app w)). Qed.

Lemma choices_update fresh f w :
  choices (update fresh f w) = choices (setApp f w).
Proof.
  unfold update. destruct (deps_changed _ _ _); [|done].
  apply choices_effect.
Qed.

Lemma choices_settle i r w : choices (settle i r w) = choices w.
Proof.
  unfold settle. destruct (inflight w !! i) as [p|]; [|done].
  by destruct p, r.
Qed.

Lemma newGrades_subseteq l g :
  g ∈ GRADE_LEVELS → l ⊆ GRADE_LEVELS → newGrades l g ⊆ GRADE_LEVELS.
Proof.
  intros Hg Hl x. destruct (decide (g ∈ l)) as [Hin|Hin].
  - rewrite newGrades_selected by done.
    intros [_ Hx]%list_elem_of_filter. by apply Hl.
  - rewrite newGrades_absent by done.
    intros [Hx| ->%list_elem_of_singleton]%elem_of_app; [by apply Hl|done].
Qed.

Lemma step_choices_ok w e :
  on_screen w e = true → choices_ok (choices w) →
  choices_ok (choices (step w e)).
Proof.
  intros Hscreen (Hgrade & Hstatus & Hgender & Hlevel & Hnodup & Hsub).
  destruct e; simpl step;
    rewrite ?choices_update, ?choices_settle;
    try (by split_and!).
  - (* ChangeGrade *)
    simpl in Hscreen. apply andb_true_iff in Hscreen as [_ Hv].
    apply bool_decide_eq_true in Hv. by split_and!.
  - (* ChangeStatus *)
    simpl in Hscreen. apply andb_true_iff in Hscreen as [_ Hv].
    apply bool_decide_eq_true in Hv. by split_and!.
  - (* ClickResetFilters *)
    split_and!; try done; simpl; constructor.
  - destruct (prevDisabled _); [by split_and!|].
    rewrite choices_update. by split_and!.
  - destruct (nextDisabled _ _); [by split_and!|].
    rewrite choices_update. by split_and!.
  - destruct confirmed; by split_and!.
  - (* EditStudent *)
    simpl in Hscreen. apply andb_true_iff in Hscreen as [_ Hv].
    destruct k; try (by split_and!);
      apply bool_decide_eq_true in Hv; by split_and!.
  - (* ToggleGradeLevel *)
    simpl in Hscreen. apply andb_true_iff in Hscreen as [_ Hv].
    apply bool_decide_eq_true in Hv.
    split_and!; try done; simpl.
    + by apply newGrades_NoDup.
    + by apply newGrades_subseteq.
  - (* SubmitStudent *)
    split_and!; try done; simpl; by apply (bool_decide_unpack _).
  - (* SubmitCourse *)
    split_and!; try done; simpl; [constructor|apply list_subseteq_nil].
Qed.

Lemma run_choices_ok events :
  ∀ w, feasible w events = true → choices_ok (choices w) →
       choices_ok (choices (run w events)).
Proof.
  induction events as [|e events IH]; simpl; [done|].
  intros w [Hscreen Hrest]%andb_true_iff Hw.
  apply IH; [done|]. by apply step_choices_ok.
Qed.

Lemma mounted_choices_ok : choices_ok (choices mounted).
Proof.
  unfold choices_ok, choices. simpl.
  split_and!; first [by apply (bool_decide_unpack _) | constructor
                    | apply list_subseteq_nil].
Qed.

(** X16: in every run of the page in which each event is on screen when it
    happens, the grade levels ticked in the course form are grade levels of
    the list, none is held twice, and so there are at most 13. *)
Theorem grade_selection_well_formed (events : list Event) :
  feasible mounted events = true →
  let grade_levels :=
    CourseForm.grade_levels (courseForm (run mounted events)) in
  NoDup grade_levels ∧ grade_levels ⊆ GRADE_LEVELS ∧
  (length grade_levels ≤ 13)%nat.
Proof.
  intros Hfeasible.
  destruct (run_choices_ok events mounted Hfeasible mounted_choices_ok)
    as (_ & _ & _ & _ & Hnodup & Hsub).
  cbv zeta. split_and!; [done|done|].
  change 13%nat with (length GRADE_LEVELS).
  by apply submseteq_length, NoDup_submseteq.
Qed.

Lemma grade_selection_well_formed_witness :
  let events := [ClickNav ViewCourses; Settle 1 (RespCourses []);
                 ClickAddCourse; ToggleGradeLevel "Kindergarten";
                 ToggleGradeLevel "Grade 1";
                 ToggleGradeLevel "Kindergarten"] in
  let grade_levels :=
    CourseForm.grade_levels (courseForm (run mounted events)) in
  NoDup grade_levels ∧ grade_levels ⊆ GRADE_LEVELS ∧
  (length grade_levels ≤ 13)%nat.
Proof.
  intros events. apply (grade_selection_well_formed events). reflexivity.
Defined.



(** ** The window beyond the count *)

(** X18: when skip is at or beyond the count (an empty list, or a count that
    shrank under a later page), the line reads "skip+1 to total of total",
    with a first row after the last one, and Next is disabled; Previous is
    enabled unless skip is 0. *)
Theorem window_beyond_count (p : Pagination) (total : Z) :
  0 ≤ limit p → total ≤ skip p →
  let '(first, last, of_total) := window p total in
  first = skip p + 1 ∧ last = total ∧ of_total = total ∧ last < first ∧
  nextDisabled p total = true ∧
  (prevDisabled p = false ↔ skip p ≠ 0).
Proof.
  intros Hlimit Htotal. simpl. split_and!; try lia.
  - apply bool_decide_eq_true. lia.
  - unfold prevDisabled. by rewrite bool_decide_eq_false.
Qed.

Lemma window_beyond_count_witness :
  let events := [ClickNav ViewStudents;
                 Settle 1 (RespStudents [ann; bob] 45);
                 ClickNext; Settle 2 (RespStudents [ann; bob] 45);
                 ChangeSearch "ann"; Settle 3 (RespStudents [] 1)] in
  let a := app (run mounted events) in
  (feasible mounted events = true ∧
   showing (pagination a) (totalStudents a)
   = "Showing 21 to 1 of 1 students") ∧
  let '(first, last, of_total) := window (pagination a) (totalStudents a) in
  first = skip (pagination a) + 1 ∧ last = totalStudents a ∧
  of_total = totalStudents a ∧ last < first ∧
  nextDisabled (pagination a) (totalStudents a) = true ∧
  (prevDisabled (pagination a) = false ↔ skip (pagination a) ≠ 0).
Proof.
  intros events a. split; [by vm_compute|].
  apply (window_beyond_count (pagination a) (totalStudents a));
    by vm_compute.
Defined.
